(** * Sentilux: the client-side analysis state machine and its derived views

    A shallow embedding of [geminiService.ts] and of the [App] component
    (state hooks, event handlers, effects and the memoised aggregates),
    followed by the properties checked against it.

    Modelling conventions.
    - A JavaScript string is a [string]; one [ascii] stands for one code
      unit, so the embedding covers strings whose code units are below 256.
    - A JavaScript [number] that holds a fraction is a rational ([Q]);
      a result that is not finite ([NaN], [Infinity]) is [None].  The
      rounding error of double arithmetic is not modelled.
    - React state is a record; every event handler, effect and promise
      continuation is a function from state to state.  Calls that leave the
      component (the two provider requests) are appended to a log kept in
      the state, so that "no request was issued" can be stated.
    - The platform services the code reads ([JSON.parse],
      [crypto.randomUUID], the wall clock) are section variables. *)

From Stdlib Require Import Ascii String QArith Qround Lqa.
From stdpp Require Import base tactics option list strings pretty gmap sorting.

Local Open Scope string_scope.
Local Open Scope list_scope.
Local Open Scope nat_scope.

(** ** JavaScript string primitives used by the component *)

Module JsString.

(** White space as [String.prototype.trim] sees it, restricted to code
    units below 256: TAB, LF, VT, FF, CR, SPACE and NBSP. *)
Definition is_space (c : ascii) : bool :=
  let n := nat_of_ascii c in
  ((9 <=? n) && (n <=? 13)) || (n =? 32) || (n =? 160).

Definition is_empty (s : string) : bool :=
  match s with "" => true | String _ _ => false end.

Fixpoint trimStart (s : string) : string :=
  match s with
  | "" => ""
  | String c r => if is_space c then trimStart r else s
  end.

Fixpoint trimEnd (s : string) : string :=
  match s with
  | "" => ""
  | String c r =>
      let r' := trimEnd r in
      if is_space c && is_empty r' then "" else String c r'
  end.

(** [s.trim()] *)
Definition trim (s : string) : string := trimEnd (trimStart s).

(** [!s.trim()]: the blank test of the submission guards. *)
Definition blank (s : string) : bool := is_empty (trim s).

(** [s.split(sep)] for a one-character separator.  The result always has
    at least one element, so [s.split(sep)[0]] is always defined. *)
Fixpoint split (sep : ascii) (s : string) : list string :=
  match s with
  | "" => [""]
  | String c r =>
      if Ascii.eqb c sep then "" :: split sep r
      else match split sep r with
           | h :: t => String c h :: t
           | [] => [String c ""]
           end
  end.

(** [s.endsWith(suffix)] *)
Fixpoint endsWith (s suffix : string) : bool :=
  String.eqb s suffix ||
  match s with
  | "" => false
  | String _ r => endsWith r suffix
  end.

Definition quote : ascii := ascii_of_nat 34.

Fixpoint dropFinalQuote (s : string) : string :=
  match s with
  | "" => ""
  | String c "" => if Ascii.eqb c quote then "" else s
  | String c r => String c (dropFinalQuote r)
  end.

(** [s.replace(/^"|"$/g, '')]: a quote at the very start is removed, and
    a quote at the very end of what follows is removed. *)
Definition stripQuotes (s : string) : string :=
  match s with
  | String c r => if Ascii.eqb c quote then dropFinalQuote r
                  else dropFinalQuote s
  | "" => ""
  end.

(** Whether the last character of [s] is a quote (used to state what
    [stripQuotes] leaves alone). *)
Fixpoint lastIsQuote (s : string) : bool :=
  match s with
  | "" => false
  | String c "" => Ascii.eqb c quote
  | String _ r => lastIsQuote r
  end.

(** [texts.slice(0, n)] and [xs.slice(-n)] on arrays. *)
Definition slice_to {A} (n : nat) (xs : list A) : list A := take n xs.
Definition slice_last {A} (n : nat) (xs : list A) : list A :=
  drop (length xs - n) xs.

End JsString.


(** ** [types.ts] *)

Inductive ProviderType := flash | pro | compare.

(** [sentiment] is declared as ['Positive' | 'Negative' | 'Neutral'], but
    its values come unchecked out of [JSON.parse], and [moodColors] keeps a
    [default] branch for other strings: the field is a string here. *)
Record SentimentAnalysis := {
  provider : string;
  sentiment : string;
  confidence : Q;
  keywords : list string;
  explanation : string
}.

Record SentimentResult := {
  id : string;
  text : string;
  timestamp : string;
  analyses : list SentimentAnalysis
}.

(** ** [geminiService.ts] *)

Definition FLASH_MODEL : string := "gemini-3-flash-preview".
Definition PRO_MODEL : string := "gemini-3-pro-preview".

Definition modelToUse (p : ProviderType) : string :=
  match p with
  | pro | compare => PRO_MODEL
  | flash => FLASH_MODEL
  end.

(** What [await ai.models.generateContent(...)] hands back: the call
    rejects, or it yields a response whose [text] may be undefined. *)
Inductive GenResponse :=
  | GenRejects
  | GenText (response_text : option string).

(** The state of a promise once it has settled. *)
Inductive Settled (A : Type) :=
  | Fulfilled (value : A)
  | Rejected (reason : string).
Arguments Fulfilled {A} value.
Arguments Rejected {A} reason.

(** One element of the parsed response array, before [id] and [timestamp]
    are stamped on it.  The spread [...r] is overridden by the two stamped
    fields, so an [id] sent by the provider never survives. *)
Record RawResult := {
  raw_text : string;
  raw_analyses : list SentimentAnalysis
}.

(** The tone suggestion returned by [getImprovementSuggestions]. *)
Record Suggestion := {
  improvedText : string;
  wordChanges : list (string * string);
  reasoning : string
}.

Section Service.

(** [JSON.parse] followed by the use the caller makes of the value:
    [None] when parsing throws or the value cannot be mapped over. *)
Variable JSON_parse_results : string -> option (list RawResult).
Variable JSON_parse_suggestion : string -> option Suggestion.
(** [crypto.randomUUID()]: the value of the n-th draw of the process. *)
Variable randomUUID : nat -> string.
(** [new Date().toISOString()] when the clock reads [t]. *)
Variable toISOString : nat -> string.

(** [response.text?.trim()] followed by [if (!jsonStr) throw]. *)
Definition jsonStr (r : option string) : option string :=
  match JsString.trim <$> r with
  | Some s => if JsString.is_empty s then None else Some s
  | None => None
  end.

(** [results.map(r => ({...r, id: crypto.randomUUID(), timestamp: ...}))];
    [d] draws have been made before the call. *)
Definition stamp (d t : nat) (rs : list RawResult) : list SentimentResult :=
  imap (fun i r => {| id := randomUUID (d + i);
                      text := raw_text r;
                      timestamp := toISOString t;
                      analyses := raw_analyses r |}) rs.

(** The part of [analyzeSentiment] that runs once the provider has
    answered.  Returns the settled promise and the number of draws made
    so far. *)
Definition analyzeSentiment (resp : GenResponse) (d t : nat)
  : Settled (list SentimentResult) * nat :=
  match resp with
  | GenRejects => (Rejected "generateContent rejected", d)
  | GenText r =>
      match jsonStr r with
      | None => (Rejected "Empty response from AI", d)
      | Some js =>
          match JSON_parse_results js with
          | None => (Rejected "SyntaxError", d)
          | Some rs => (Fulfilled (stamp d t rs), d + length rs)
          end
      end
  end.

Definition getImprovementSuggestions (resp : GenResponse)
  : Settled Suggestion :=
  match resp with
  | GenRejects => Rejected "generateContent rejected"
  | GenText r =>
      match jsonStr r with
      | None => Rejected "Could not generate suggestions."
      | Some js =>
          match JSON_parse_suggestion js with
          | None => Rejected "SyntaxError"
          | Some data => Fulfilled data
          end
      end
  end.

End Service.

(** ** The [App] component: state *)

Inductive Tab := tab_dashboard | tab_history | tab_insights.

(** A request that left the component. *)
Inductive Call :=
  | AnalyzeCall (texts : list string) (mode : ProviderType)
  | ImproveCall (source : string).

(** An uploaded file, as the change event and the [FileReader] present it. *)
Record File := {
  file_name : string;
  file_content : string
}.

(** The hooks of [App]: the [useState] cells, the state cell and the timer
    of [useDebounce], the [lastAnalyzedText] ref; then the clock, the
    number of UUID draws made and the log of provider requests.  The last
    field holds the file reads in progress: [reader.onload] is a closure of
    the render in which the file was chosen, so each read keeps the
    provider mode that was selected then. *)
Record State := {
  activeTab : Tab;
  inputText : string;
  selectedProvider : ProviderType;
  isLoading : bool;
  results : list SentimentResult;
  history : list SentimentResult;
  error : option string;
  isSidebarOpen : bool;
  showGuide : bool;
  improvingText : option (string * string);
  isImproving : bool;
  suggestion : option Suggestion;
  debouncedInput : string;
  timer : option (nat * string);
  lastAnalyzedText : string;
  now : nat;
  draws : nat;
  calls : list Call;
  pendingReads : list (File * ProviderType)
}.

Definition setActiveTab (v : Tab) (s : State) : State :=
  {| activeTab := v; inputText := inputText s;
     selectedProvider := selectedProvider s; isLoading := isLoading s;
     results := results s; history := history s; error := error s;
     isSidebarOpen := isSidebarOpen s; showGuide := showGuide s;
     improvingText := improvingText s; isImproving := isImproving s;
     suggestion := suggestion s; debouncedInput := debouncedInput s;
     timer := timer s; lastAnalyzedText := lastAnalyzedText s; now := now s;
     draws := draws s; calls := calls s; pendingReads := pendingReads s |}.

Definition setInputText (v : string) (s : State) : State :=
  {| activeTab := activeTab s; inputText := v;
     selectedProvider := selectedProvider s; isLoading := isLoading s;
     results := results s; history := history s; error := error s;
     isSidebarOpen := isSidebarOpen s; showGuide := showGuide s;
     improvingText := improvingText s; isImproving := isImproving s;
     suggestion := suggestion s; debouncedInput := debouncedInput s;
     timer := timer s; lastAnalyzedText := lastAnalyzedText s; now := now s;
     draws := draws s; calls := calls s; pendingReads := pendingReads s |}.

Definition setSelectedProvider (v : ProviderType) (s : State) : State :=
  {| activeTab := activeTab s; inputText := inputText s;
     selectedProvider := v; isLoading := isLoading s; results := results s;
     history := history s; error := error s;
     isSidebarOpen := isSidebarOpen s; showGuide := showGuide s;
     improvingText := improvingText s; isImproving := isImproving s;
     suggestion := suggestion s; debouncedInput := debouncedInput s;
     timer := timer s; lastAnalyzedText := lastAnalyzedText s; now := now s;
     draws := draws s; calls := calls s; pendingReads := pendingReads s |}.

Definition setIsLoading (v : bool) (s : State) : State :=
  {| activeTab := activeTab s; inputText := inputText s;
     selectedProvider := selectedProvider s; isLoading := v;
     results := results s; history := history s; error := error s;
     isSidebarOpen := isSidebarOpen s; showGuide := showGuide s;
     improvingText := improvingText s; isImproving := isImproving s;
     suggestion := suggestion s; debouncedInput := debouncedInput s;
     timer := timer s; lastAnalyzedText := lastAnalyzedText s; now := now s;
     draws := draws s; calls := calls s; pendingReads := pendingReads s |}.

Definition setResults (v : list SentimentResult) (s : State) : State :=
  {| activeTab := activeTab s; inputText := inputText s;
     selectedProvider := selectedProvider s; isLoading := isLoading s;
     results := v; history := history s; error := error s;
     isSidebarOpen := isSidebarOpen s; showGuide := showGuide s;
     improvingText := improvingText s; isImproving := isImproving s;
     suggestion := suggestion s; debouncedInput := debouncedInput s;
     timer := timer s; lastAnalyzedText := lastAnalyzedText s; now := now s;
     draws := draws s; calls := calls s; pendingReads := pendingReads s |}.

Definition setHistory (v : list SentimentResult) (s : State) : State :=
  {| activeTab := activeTab s; inputText := inputText s;
     selectedProvider := selectedProvider s; isLoading := isLoading s;
     results := results s; history := v; error := error s;
     isSidebarOpen := isSidebarOpen s; showGuide := showGuide s;
     improvingText := improvingText s; isImproving := isImproving s;
     suggestion := suggestion s; debouncedInput := debouncedInput s;
     timer := timer s; lastAnalyzedText := lastAnalyzedText s; now := now s;
     draws := draws s; calls := calls s; pendingReads := pendingReads s |}.

Definition setError (v : option string) (s : State) : State :=
  {| activeTab := activeTab s; inputText := inputText s;
     selectedProvider := selectedProvider s; isLoading := isLoading s;
     results := results s; history := history s; error := v;
     isSidebarOpen := isSidebarOpen s; showGuide := showGuide s;
     improvingText := improvingText s; isImproving := isImproving s;
     suggestion := suggestion s; debouncedInput := debouncedInput s;
     timer := timer s; lastAnalyzedText := lastAnalyzedText s; now := now s;
     draws := draws s; calls := calls s; pendingReads := pendingReads s |}.

Definition setIsSidebarOpen (v : bool) (s : State) : State :=
  {| activeTab := activeTab s; inputText := inputText s;
     selectedProvider := selectedProvider s; isLoading := isLoading s;
     results := results s; history := history s; error := error s;
     isSidebarOpen := v; showGuide := showGuide s;
     improvingText := improvingText s; isImproving := isImproving s;
     suggestion := suggestion s; debouncedInput := debouncedInput s;
     timer := timer s; lastAnalyzedText := lastAnalyzedText s; now := now s;
     draws := draws s; calls := calls s; pendingReads := pendingReads s |}.

Definition setShowGuide (v : bool) (s : State) : State :=
  {| activeTab := activeTab s; inputText := inputText s;
     selectedProvider := selectedProvider s; isLoading := isLoading s;
     results := results s; history := history s; error := error s;
     isSidebarOpen := isSidebarOpen s; showGuide := v;
     improvingText := improvingText s; isImproving := isImproving s;
     suggestion := suggestion s; debouncedInput := debouncedInput s;
     timer := timer s; lastAnalyzedText := lastAnalyzedText s; now := now s;
     draws := draws s; calls := calls s; pendingReads := pendingReads s |}.

Definition setImprovingText (v : option (string * string)) (s : State) : State :=
  {| activeTab := activeTab s; inputText := inputText s;
     selectedProvider := selectedProvider s; isLoading := isLoading s;
     results := results s; history := history s; error := error s;
     isSidebarOpen := isSidebarOpen s; showGuide := showGuide s;
     improvingText := v; isImproving := isImproving s;
     suggestion := suggestion s; debouncedInput := debouncedInput s;
     timer := timer s; lastAnalyzedText := lastAnalyzedText s; now := now s;
     draws := draws s; calls := calls s; pendingReads := pendingReads s |}.

Definition setIsImproving (v : bool) (s : State) : State :=
  {| activeTab := activeTab s; inputText := inputText s;
     selectedProvider := selectedProvider s; isLoading := isLoading s;
     results := results s; history := history s; error := error s;
     isSidebarOpen := isSidebarOpen s; showGuide := showGuide s;
     improvingText := improvingText s; isImproving := v;
     suggestion := suggestion s; debouncedInput := debouncedInput s;
     timer := timer s; lastAnalyzedText := lastAnalyzedText s; now := now s;
     draws := draws s; calls := calls s; pendingReads := pendingReads s |}.

Definition setSuggestion (v : option Suggestion) (s : State) : State :=
  {| activeTab := activeTab s; inputText := inputText s;
     selectedProvider := selectedProvider s; isLoading := isLoading s;
     results := results s; history := history s; error := error s;
     isSidebarOpen := isSidebarOpen s; showGuide := showGuide s;
     improvingText := improvingText s; isImproving := isImproving s;
     suggestion := v; debouncedInput := debouncedInput s; timer := timer s;
     lastAnalyzedText := lastAnalyzedText s; now := now s; draws := draws s;
     calls := calls s; pendingReads := pendingReads s |}.

Definition setDebouncedValue (v : string) (s : State) : State :=
  {| activeTab := activeTab s; inputText := inputText s;
     selectedProvider := selectedProvider s; isLoading := isLoading s;
     results := results s; history := history s; error := error s;
     isSidebarOpen := isSidebarOpen s; showGuide := showGuide s;
     improvingText := improvingText s; isImproving := isImproving s;
     suggestion := suggestion s; debouncedInput := v; timer := timer s;
     lastAnalyzedText := lastAnalyzedText s; now := now s; draws := draws s;
     calls := calls s; pendingReads := pendingReads s |}.

Definition setTimer (v : option (nat * string)) (s : State) : State :=
  {| activeTab := activeTab s; inputText := inputText s;
     selectedProvider := selectedProvider s; isLoading := isLoading s;
     results := results s; history := history s; error := error s;
     isSidebarOpen := isSidebarOpen s; showGuide := showGuide s;
     improvingText := improvingText s; isImproving := isImproving s;
     suggestion := suggestion s; debouncedInput := debouncedInput s;
     timer := v; lastAnalyzedText := lastAnalyzedText s; now := now s;
     draws := draws s; calls := calls s; pendingReads := pendingReads s |}.

Definition setLastAnalyzedText (v : string) (s : State) : State :=
  {| activeTab := activeTab s; inputText := inputText s;
     selectedProvider := selectedProvider s; isLoading := isLoading s;
     results := results s; history := history s; error := error s;
     isSidebarOpen := isSidebarOpen s; showGuide := showGuide s;
     improvingText := improvingText s; isImproving := isImproving s;
     suggestion := suggestion s; debouncedInput := debouncedInput s;
     timer := timer s; lastAnalyzedText := v; now := now s; draws := draws s;
     calls := calls s; pendingReads := pendingReads s |}.

Definition setNow (v : nat) (s : State) : State :=
  {| activeTab := activeTab s; inputText := inputText s;
     selectedProvider := selectedProvider s; isLoading := isLoading s;
     results := results s; history := history s; error := error s;
     isSidebarOpen := isSidebarOpen s; showGuide := showGuide s;
     improvingText := improvingText s; isImproving := isImproving s;
     suggestion := suggestion s; debouncedInput := debouncedInput s;
     timer := timer s; lastAnalyzedText := lastAnalyzedText s; now := v;
     draws := draws s; calls := calls s; pendingReads := pendingReads s |}.

Definition setDraws (v : nat) (s : State) : State :=
  {| activeTab := activeTab s; inputText := inputText s;
     selectedProvider := selectedProvider s; isLoading := isLoading s;
     results := results s; history := history s; error := error s;
     isSidebarOpen := isSidebarOpen s; showGuide := showGuide s;
     improvingText := improvingText s; isImproving := isImproving s;
     suggestion := suggestion s; debouncedInput := debouncedInput s;
     timer := timer s; lastAnalyzedText := lastAnalyzedText s; now := now s;
     draws := v; calls := calls s; pendingReads := pendingReads s |}.

Definition setCalls (v : list Call) (s : State) : State :=
  {| activeTab := activeTab s; inputText := inputText s;
     selectedProvider := selectedProvider s; isLoading := isLoading s;
     results := results s; history := history s; error := error s;
     isSidebarOpen := isSidebarOpen s; showGuide := showGuide s;
     improvingText := improvingText s; isImproving := isImproving s;
     suggestion := suggestion s; debouncedInput := debouncedInput s;
     timer := timer s; lastAnalyzedText := lastAnalyzedText s; now := now s;
     draws := draws s; calls := v; pendingReads := pendingReads s |}.

Definition setPendingReads (v : list (File * ProviderType)) (s : State) : State :=
  {| activeTab := activeTab s; inputText := inputText s;
     selectedProvider := selectedProvider s; isLoading := isLoading s;
     results := results s; history := history s; error := error s;
     isSidebarOpen := isSidebarOpen s; showGuide := showGuide s;
     improvingText := improvingText s; isImproving := isImproving s;
     suggestion := suggestion s; debouncedInput := debouncedInput s;
     timer := timer s; lastAnalyzedText := lastAnalyzedText s; now := now s;
     draws := draws s; calls := calls s; pendingReads := v |}.

(** ** The [App] component: handlers, effects and continuations *)

Section App.

Variable JSON_parse_results : string -> option (list RawResult).
Variable JSON_parse_suggestion : string -> option Suggestion.
Variable randomUUID : nat -> string.
Variable toISOString : nat -> string.

(** The state after mount: the initial values of the hooks, and the timer
    that the first run of the effect of [useDebounce] arms. *)
Definition initial : State :=
  {| activeTab := tab_dashboard; inputText := "";
     selectedProvider := compare; isLoading := false;
     results := []; history := []; error := None;
     isSidebarOpen := false; showGuide := true;
     improvingText := None; isImproving := false; suggestion := None;
     debouncedInput := ""; timer := Some (1500, "");
     lastAnalyzedText := ""; now := 0; draws := 0; calls := [];
     pendingReads := [] |}.

(** *** [handleAnalysis] *)

(** Up to the [await]: the guard, the two setters, the request. *)
Definition handleAnalysis (texts : list string) (s : State) : State :=
  if (length texts =? 0) || forallb JsString.blank texts then s
  else
    let s := setIsLoading true s in
    let s := setError None s in
    setCalls (calls s ++ [AnalyzeCall texts (selectedProvider s)]) s.

(** From the [await] on: [try] body or [catch], then [finally]. *)
Definition handleAnalysis_resume (resp : GenResponse) (s : State) : State :=
  let '(outcome, d) :=
    analyzeSentiment JSON_parse_results randomUUID toISOString
                     resp (draws s) (now s) in
  let s := setDraws d s in
  let s :=
    match outcome with
    | Fulfilled newResults =>
        let s := setResults newResults s in
        let s := setHistory (newResults ++ history s) s in
        setShowGuide false s
    | Rejected _ =>
        setError (Some "Analysis failed. Verify your connection or API key.") s
    end in
  setIsLoading false s.

(** *** [useDebounce] and the auto-analysis effect *)

(** The effect of [useDebounce] when [value] has changed: the cleanup of
    the previous run clears its timer, then a new one is armed. *)
Definition useDebounce_effect (value : string) (delay : nat) (s : State)
  : State :=
  setTimer (Some (now s + delay, value)) s.

(** [setInputText(v)]: React skips the render when the value is the one
    already held; otherwise [useDebounce] sees a new [value]. *)
Definition changeInput (v : string) (s : State) : State :=
  if String.eqb v (inputText s) then s
  else useDebounce_effect v 1500 (setInputText v s).

(** The effect keyed on [debouncedInput]. *)
Definition autoAnalysis (s : State) : State :=
  let debounced := debouncedInput s in
  if (20 <? String.length (JsString.trim debounced))
     && negb (String.eqb debounced (lastAnalyzedText s))
  then
    let s := setLastAnalyzedText debounced s in
    handleAnalysis [debounced] s
  else s.

(** The timer callback [() => setDebouncedValue(value)]; the effect runs
    only when the settled value is a new one. *)
Definition timerFires (value : string) (s : State) : State :=
  let s := setTimer None s in
  if String.eqb value (debouncedInput s) then s
  else autoAnalysis (setDebouncedValue value s).

(** The clock advances by [d]; a timer that is due fires. *)
Definition elapse (d : nat) (s : State) : State :=
  let s := setNow (now s + d) s in
  match timer s with
  | Some (due, value) => if due <=? now s then timerFires value s else s
  | None => s
  end.

(** *** [manualAnalyze] *)

Definition manualAnalyze (s : State) : State :=
  if JsString.blank (inputText s) then
    setError (Some "Please enter some text to analyze.") s
  else
    let s := setLastAnalyzedText (inputText s) s in
    handleAnalysis [inputText s] s.

(** *** [handleImproveRequest] *)

Definition handleImproveRequest (rid rtext : string) (s : State) : State :=
  let s := setImprovingText (Some (rid, rtext)) s in
  let s := setIsImproving true s in
  let s := setSuggestion None s in
  setCalls (calls s ++ [ImproveCall rtext]) s.

Definition handleImproveRequest_resume (resp : GenResponse) (s : State)
  : State :=
  let s :=
    match getImprovementSuggestions JSON_parse_suggestion resp with
    | Fulfilled data => setSuggestion (Some data) s
    | Rejected _ => setError (Some "Failed to generate suggestions.") s
    end in
  setIsImproving false s.

(** *** [onFileUpload] *)

(** [l.split(',')[0]] *)
Definition firstField (l : string) : string :=
  match JsString.split ","%char l with
  | h :: _ => h
  | [] => ""
  end.

Definition newline : ascii := ascii_of_nat 10.

(** The [lines] computed by [reader.onload]. *)
Definition uploadLines (name content : string) : list string :=
  if JsString.endsWith name ".csv" then
    filter (fun l => 5 < String.length l)
      ((fun l => JsString.trim (JsString.stripQuotes (firstField l)))
         <$> JsString.split newline content)
  else
    filter (fun l => 5 < String.length l)
      (JsString.trim <$> JsString.split newline content).

(** [handleAnalysis] as a closure of an earlier render sees it: the
    provider mode is the one that render held. *)
Definition handleAnalysis_captured (mode : ProviderType)
  (texts : list string) (s : State) : State :=
  if (length texts =? 0) || forallb JsString.blank texts then s
  else
    let s := setIsLoading true s in
    let s := setError None s in
    setCalls (calls s ++ [AnalyzeCall texts mode]) s.

(** The change handler itself: [e.target.files?.[0]]; the reader it
    starts is noted with the mode its closure holds. *)
Definition onFileUpload (file : option File) (s : State) : State :=
  match file with
  | None => s
  | Some f =>
      let s := setIsLoading true s in
      setPendingReads (pendingReads s ++ [(f, selectedProvider s)]) s
  end.

(** The body of [reader.onload], in the closure that holds [mode]. *)
Definition reader_onload (file : File) (mode : ProviderType) (s : State)
  : State :=
  let lines := uploadLines (file_name file) (file_content file) in
  if 0 <? length lines
  then handleAnalysis_captured mode (JsString.slice_to 10 lines) s
  else s.

Definition sameFile (f g : File) : bool :=
  String.eqb (file_name f) (file_name g)
  && String.eqb (file_content f) (file_content g).

(** The oldest read in progress of a given file, and the reads left. *)
Fixpoint takeRead (file : File) (reads : list (File * ProviderType))
  : option (ProviderType * list (File * ProviderType)) :=
  match reads with
  | [] => None
  | (f, mode) :: rest =>
      if sameFile f file then Some (mode, rest)
      else match takeRead file rest with
           | Some (m, rest') => Some (m, (f, mode) :: rest')
           | None => None
           end
  end.

(** The reader of [file] finishes; without such a read in progress
    nothing happens. *)
Definition fileRead (file : File) (s : State) : State :=
  match takeRead file (pendingReads s) with
  | Some (mode, rest) => reader_onload file mode (setPendingReads rest s)
  | None => s
  end.

(** *** [insertExample] *)

Definition examples : list string :=
  [ "The product quality is absolutely disappointing, and the delivery was late twice.";
    "I am incredibly happy with the new update! Everything works smoothly and fast.";
    "The service was okay, nothing special but it got the job done eventually.";
    "I really hate the new interface, it's confusing and cluttered." ].

(** [k] is [Math.floor(Math.random() * examples.length)]. *)
Definition insertExample (k : nat) (s : State) : State :=
  match examples !! k with
  | Some random => changeInput random s
  | None => s
  end.

(** *** The event loop *)

(** Everything that can run a piece of the component: the DOM events its
    markup subscribes to, the two promise continuations, the file reader
    and the passage of time. *)
Inductive Event :=
  | ClickMenu
  | ClickNav (t : Tab)
  | ClickHelpCenter
  | ClickBackdrop
  | ClickProvider (p : ProviderType)
  | ClickHelpCircle
  | ClickGuideClose
  | ClickTryExample (k : nat)
  | ChangeInput (v : string)
  | ClickAnalyze
  | ChooseFile (file : option File)
  | FileRead (file : File)
  | ClickReframe (i j : nat)
  | ClickClearArchives
  | ClickAnalyzeSomething
  | ClickDismiss
  | ClickCopy
  | ClickErrorClose
  | AnalysisSettles (resp : GenResponse)
  | ImprovementSettles (resp : GenResponse)
  | Elapse (d : nat).

(** The Reframe button of analysis [j] of the [i]-th current result; it
    is rendered only for an analysis whose sentiment is Negative. *)
Definition clickReframe (i j : nat) (s : State) : State :=
  match results s !! i with
  | Some r =>
      match analyses r !! j with
      | Some a =>
          if String.eqb (sentiment a) "Negative"
          then handleImproveRequest (id r) (text r) s
          else s
      | None => s
      end
  | None => s
  end.

Definition step (s : State) (e : Event) : State :=
  match e with
  | ClickMenu => setIsSidebarOpen (negb (isSidebarOpen s)) s
  | ClickNav t => setIsSidebarOpen false (setActiveTab t s)
  | ClickHelpCenter => setShowGuide (negb (showGuide s)) s
  | ClickBackdrop => setIsSidebarOpen false s
  | ClickProvider p => setSelectedProvider p s
  | ClickHelpCircle => setShowGuide true s
  | ClickGuideClose => setShowGuide false s
  | ClickTryExample k => insertExample k s
  | ChangeInput v => changeInput v s
  | ClickAnalyze =>
      (* disabled={isLoading || !inputText.trim()} *)
      if isLoading s || JsString.blank (inputText s) then s
      else manualAnalyze s
  | ChooseFile file => onFileUpload file s
  | FileRead file => fileRead file s
  | ClickReframe i j => clickReframe i j s
  | ClickClearArchives => setHistory [] s
  | ClickAnalyzeSomething => setActiveTab tab_dashboard s
  | ClickDismiss => setImprovingText None s
  | ClickCopy => s
  | ClickErrorClose => setError None s
  | AnalysisSettles resp => handleAnalysis_resume resp s
  | ImprovementSettles resp => handleImproveRequest_resume resp s
  | Elapse d => elapse d s
  end.

Definition run (s : State) (es : list Event) : State := fold_left step es s.

Inductive reachable : State -> Prop :=
  | reachable_initial : reachable initial
  | reachable_step s e : reachable s -> reachable (step s e).

(** *** What the suggestion modal shows *)

Inductive SessionView :=
  | Closed
  | Requesting
  | Ready (data : Suggestion)
  | Failed.

(** The modal is mounted only while [improvingText] is set; inside it the
    spinner has priority over the suggestion. *)
Definition sessionView (s : State) : SessionView :=
  match improvingText s with
  | None => Closed
  | Some _ =>
      if isImproving s then Requesting
      else match suggestion s with
           | Some data => Ready data
           | None => Failed
           end
  end.

End App.

(** ** Derived views ([useMemo] blocks) *)

(** A JavaScript number holding a fraction, as the exact rational it
    approximates; [None] is a result that is not finite. The code computes
    in double precision: at a value that lies exactly between two integers
    before rounding, [Math_round] of the double can differ by one from
    [Math_round] of the rational, and a confidence that is not finite, or
    a sum that overflows, has no counterpart here. The facts below are
    therefore about counts, ranges and the finiteness of ratios of counts
    and of bounded confidences, not about the last digit of a rounded
    value. *)
Definition Number := option Q.

Definition Number_of_nat (n : nat) : Number := Some (inject_Z (Z.of_nat n)).

(** [a / b]: division by zero gives [NaN] or [Infinity]. *)
Definition Number_div (a b : Number) : Number :=
  match a, b with
  | Some x, Some y => if Qeq_bool y 0 then None else Some (x / y)%Q
  | _, _ => None
  end.

Definition Number_mul (a b : Number) : Number :=
  match a, b with
  | Some x, Some y => Some (x * y)%Q
  | _, _ => None
  end.

(** [Math.round]: the nearest integer, halves going up. *)
Definition Math_round (a : Number) : option Z :=
  (fun x => Qfloor (x + (1 # 2))%Q) <$> a.

(** [r.analyses[0]?.sentiment] *)
Definition firstSentiment (r : SentimentResult) : option string :=
  sentiment <$> analyses r !! 0.

(** [data[0]?.analyses[0]?.sentiment || 'Neutral']; the empty string is
    falsy. *)
Definition primarySentiment (data : list SentimentResult) : string :=
  match data !! 0 ≫= firstSentiment with
  | Some v => if JsString.is_empty v then "Neutral" else v
  | None => "Neutral"
  end.

Definition theme_empty : string :=
  "linear-gradient(135deg, #fdfcfb 0%, #e2d1c3 100%)".
Definition theme_Positive : string :=
  "radial-gradient(circle at top right, #f0fdf4 0%, #dcfce7 35%, #fdfcfb 100%)".
Definition theme_Negative : string :=
  "radial-gradient(circle at top right, #fff1f2 0%, #ffe4e6 35%, #fdfcfb 100%)".
Definition theme_Neutral : string :=
  "radial-gradient(circle at top right, #f5f3ff 0%, #ede9fe 35%, #fdfcfb 100%)".
Definition theme_default : string := "#fdfcfb".

Definition moodColors (results history : list SentimentResult) : string :=
  let data := if 0 <? length results then results else take 1 history in
  if length data =? 0 then theme_empty
  else
    let v := primarySentiment data in
    if String.eqb v "Positive" then theme_Positive
    else if String.eqb v "Negative" then theme_Negative
    else if String.eqb v "Neutral" then theme_Neutral
    else theme_default.

(** The source set of the dashboard aggregates. *)
Definition analyticsSource (results history : list SentimentResult)
  : list SentimentResult :=
  if 0 <? length results then results else history.

Definition isPositiveFirst (r : SentimentResult) : bool :=
  match firstSentiment r with
  | Some v => String.eqb v "Positive"
  | None => false
  end.

Definition posCount (data : list SentimentResult) : nat :=
  length (List.filter isPositiveFirst data).

(** [data.length || 1] *)
Definition radialTotal (data : list SentimentResult) : nat :=
  if length data =? 0 then 1 else length data.

Record RadialBar := {
  bar_name : string;
  bar_value : option Z;
  bar_fill : string
}.

Definition radialData (results history : list SentimentResult)
  : list RadialBar :=
  let data := analyticsSource results history in
  [ {| bar_name := "Success Rate";
       bar_value :=
         Math_round
           (Number_mul
              (Number_div (Number_of_nat (posCount data))
                          (Number_of_nat (radialTotal data)))
              (Number_of_nat 100));
       bar_fill := "#a7f3d0" |} ].

Record TrendPoint := {
  point_name : string;
  point_confidence : option Z;
  point_pos : nat;
  point_neg : nat;
  point_neu : nat
}.

Definition countSentiment (v : string) (l : list SentimentAnalysis) : nat :=
  length (List.filter (fun a => String.eqb (sentiment a) v) l).

(** [h.analyses.reduce((acc, curr) => acc + curr.confidence, 0)] *)
Definition sumConfidence (l : list SentimentAnalysis) : Q :=
  fold_left (fun acc curr => (acc + confidence curr)%Q) l 0%Q.

Definition trendPoint (i : nat) (h : SentimentResult) : TrendPoint :=
  let avgConf :=
    Number_div (Some (sumConfidence (analyses h)))
               (Number_of_nat (length (analyses h))) in
  {| point_name := "T-" +:+ pretty (15 - Z.of_nat i)%Z;
     point_confidence := Math_round (Number_mul avgConf (Number_of_nat 100));
     point_pos := countSentiment "Positive" (analyses h);
     point_neg := countSentiment "Negative" (analyses h);
     point_neu := countSentiment "Neutral" (analyses h) |}.

(** [[...history].reverse().slice(-15).map((h, i) => ...)] *)
Definition timeSeriesData (history : list SentimentResult)
  : list TrendPoint :=
  imap trendPoint (JsString.slice_last 15 (reverse history)).

(** *** [stats]: the sentiment distribution *)

Record StatRow := {
  stat_name : string;
  stat_value : option nat;
  stat_color : string
}.

(** The [totals] object; a counter that holds [NaN] is [None]. *)
Definition initialTotals : gmap string (option nat) :=
  {[ "Positive" := Some 0; "Negative" := Some 0; "Neutral" := Some 0 ]}.

(** [totals[k]++]: a key that is missing, or that holds [NaN], ends up
    holding [NaN] (under the name [__proto__] nothing is stored at all;
    either way the three counters that are read are not affected). *)
Definition increment (k : string) (totals : gmap string (option nat))
  : gmap string (option nat) :=
  <[ k := match totals !! k with
          | Some (Some n) => Some (S n)
          | _ => None
          end ]> totals.

(** [data.forEach(r => r.analyses.forEach(a => totals[a.sentiment]++))] *)
Definition tally (data : list SentimentResult) : gmap string (option nat) :=
  fold_left
    (fun totals r =>
       fold_left (fun totals a => increment (sentiment a) totals)
                 (analyses r) totals)
    data initialTotals.

Definition stats (results history : list SentimentResult) : list StatRow :=
  let totals := tally (analyticsSource results history) in
  [ {| stat_name := "Positive";
       stat_value := default None (totals !! "Positive");
       stat_color := "#a7f3d0" |};
    {| stat_name := "Neutral";
       stat_value := default None (totals !! "Neutral");
       stat_color := "#c7d2fe" |};
    {| stat_name := "Negative";
       stat_value := default None (totals !! "Negative");
       stat_color := "#fecaca" |} ].

(** *** [radarData]: provider agreement *)

Record RadarRow := {
  radar_subject : string;
  radar_Standard : nat;
  radar_Expert : nat;
  radar_fullMark : nat
}.

(** [history.filter(h => h.analyses.some(a => a.provider === p &&
    a.sentiment === v)).length] *)
Definition providerCount (p v : string) (history : list SentimentResult)
  : nat :=
  length
    (List.filter
       (fun h => existsb (fun a => String.eqb (provider a) p
                                   && String.eqb (sentiment a) v)
                         (analyses h))
       history).

Definition radarData (history : list SentimentResult) : list RadarRow :=
  (fun v =>
     let standardCount := providerCount "Standard" v history in
     let expertCount := providerCount "Expert" v history in
     {| radar_subject := v;
        radar_Standard := standardCount;
        radar_Expert := expertCount;
        radar_fullMark := Nat.max (Nat.max standardCount expertCount) 10 |})
    <$> ["Positive"; "Neutral"; "Negative"].

(** *** [keywordBubbleData]: the keyword map *)

Record KeywordTotals := {
  kw_count : nat;
  kw_conf : Q
}.

Record Bubble := {
  bubble_name : string;
  bubble_x : nat;
  bubble_y : option Z;
  bubble_z : nat
}.

(** The property names every object inherits from [Object.prototype].
    For such a keyword [counts[kw]] is already truthy, so no entry of its
    own is created and the two updates land on the inherited value. *)
Definition objectPrototypeKeys : list string :=
  [ "constructor"; "__defineGetter__"; "__defineSetter__"; "hasOwnProperty";
    "__lookupGetter__"; "__lookupSetter__"; "isPrototypeOf";
    "propertyIsEnumerable"; "toString"; "valueOf"; "__proto__";
    "toLocaleString" ].

Definition inherited (kw : string) : bool :=
  existsb (String.eqb kw) objectPrototypeKeys.

(** The own properties of [counts], in creation order.  The update of one
    keyword occurrence: the entry is created on first sight, then counted. *)
Fixpoint countKeyword (kw : string) (c : Q)
  (counts : list (string * KeywordTotals)) : list (string * KeywordTotals) :=
  match counts with
  | [] => [(kw, {| kw_count := 1; kw_conf := (0 + c)%Q |})]
  | (k, v) :: rest =>
      if String.eqb k kw
      then (k, {| kw_count := S (kw_count v);
                  kw_conf := (kw_conf v + c)%Q |}) :: rest
      else (k, v) :: countKeyword kw c rest
  end.

Definition noteKeyword (c : Q) (counts : list (string * KeywordTotals))
  (kw : string) : list (string * KeywordTotals) :=
  if inherited kw then counts else countKeyword kw c counts.

(** The three nested [forEach] loops. *)
Definition keywordCounts (history : list SentimentResult)
  : list (string * KeywordTotals) :=
  fold_left
    (fun counts r =>
       fold_left
         (fun counts a => fold_left (noteKeyword (confidence a)) (keywords a) counts)
         (analyses r) counts)
    history [].

(** The value of a decimal digit. *)
Definition digitValue (c : ascii) : option N :=
  let n := N_of_ascii c in
  if ((48 <=? n) && (n <=? 57))%N then Some (n - 48)%N else None.

Fixpoint digitsValue (acc : N) (s : string) : option N :=
  match s with
  | "" => Some acc
  | String c r =>
      match digitValue c with
      | Some d => digitsValue (10 * acc + d)%N r
      | None => None
      end
  end.

(** A property name that is an array index: the canonical decimal form of
    an integer below [2^32 - 1]. *)
Definition arrayIndex (k : string) : option N :=
  match k with
  | "" => None
  | _ =>
      match digitsValue 0 k with
      | Some n =>
          if (n <? 4294967295)%N && String.eqb (pretty n) k
          then Some n else None
      | None => None
      end
  end.

Fixpoint insertByIndex {A} (i : N) (e : A) (l : list (N * A)) : list (N * A) :=
  match l with
  | [] => [(i, e)]
  | (j, f) :: rest =>
      if (i <=? j)%N then (i, e) :: l else (j, f) :: insertByIndex i e rest
  end.

(** [Object.entries]: array-index names first, in ascending numeric
    order, then the other names in creation order. *)
Definition Object_entries {A} (props : list (string * A)) : list (string * A) :=
  let indexed :=
    foldr (fun e acc => match arrayIndex e.1 with
                        | Some i => insertByIndex i e acc
                        | None => acc
                        end) [] props in
  (snd <$> indexed)
  ++ List.filter (fun e => match arrayIndex e.1 with
                           | Some _ => false
                           | None => true
                           end) props.

Definition bubbleOf (e : string * KeywordTotals) : Bubble :=
  let val := e.2 in
  {| bubble_name := e.1;
     bubble_x := kw_count val;
     bubble_y :=
       Math_round
         (Number_mul (Number_div (Some (kw_conf val))
                                 (Number_of_nat (kw_count val)))
                     (Number_of_nat 100));
     bubble_z := kw_count val * 10 |}.

(** [xs.sort((a, b) => b.x - a.x)]: the sort is stable, so among bubbles
    of equal [x] the earlier one stays first. *)
Fixpoint insertBubble (a : Bubble) (l : list Bubble) : list Bubble :=
  match l with
  | [] => [a]
  | b :: rest =>
      if bubble_x b <=? bubble_x a then a :: l else b :: insertBubble a rest
  end.

Definition sortBubbles (l : list Bubble) : list Bubble :=
  foldr insertBubble [] l.

Definition keywordBubbleData (history : list SentimentResult) : list Bubble :=
  take 10 (sortBubbles (bubbleOf <$> Object_entries (keywordCounts history))).

(** ** Vocabulary of the statements *)

(** The calls issued between state [s] and a later state [s']. *)
Definition issued (s s' : State) : list Call :=
  drop (length (calls s)) (calls s').

(** The condition under which a settled value is analysed automatically:
    more than 20 characters once trimmed, and not the text the tracker
    holds. *)
Definition autoTrigger (s : State) : Prop :=
  20 < String.length (JsString.trim (debouncedInput s))
  /\ debouncedInput s <> lastAnalyzedText s.

(** The ways a provider call fails: it throws, its content is missing or
    blank, or its content cannot be parsed. *)
Inductive ProviderFails (parse : string -> option (list RawResult))
  : GenResponse -> Prop :=
  | fails_throw : ProviderFails parse GenRejects
  | fails_no_text : ProviderFails parse (GenText None)
  | fails_blank t :
      JsString.trim t = "" -> ProviderFails parse (GenText (Some t))
  | fails_unparsable t :
      parse (JsString.trim t) = None -> ProviderFails parse (GenText (Some t)).

(** The content of a successful provider answer. *)
Definition providerReturns (parse : string -> option (list RawResult))
  (resp : GenResponse) (raws : list RawResult) : Prop :=
  exists t, resp = GenText (Some t) /\ JsString.trim t <> ""
            /\ parse (JsString.trim t) = Some raws.

(** The first comma-delimited field of a line: everything before the first
    comma. *)
Fixpoint untilComma (l : string) : string :=
  match l with
  | "" => ""
  | String c r => if Ascii.eqb c ","%char then "" else String c (untilComma r)
  end.

(** What the upload keeps of one line, as the interface description words it. *)
Definition extractLine (name l : string) : string :=
  if JsString.endsWith name ".csv"
  then JsString.trim (JsString.stripQuotes (untilComma l))
  else JsString.trim l.

(** A run of input changes, each followed by a pause. *)
Fixpoint burst (edits : list (string * nat)) : list Event :=
  match edits with
  | [] => []
  | (v, gap) :: rest => ChangeInput v :: Elapse gap :: burst rest
  end.

(** Every value of the run differs from the one before it, starting from
    [cur]: each change event really changes the text. *)
Fixpoint changing (cur : string) (vs : list string) : Prop :=
  match vs with
  | [] => True
  | v :: rest => v <> cur /\ changing v rest
  end.

(** The labels a trend of [n] points would carry if each point were named
    by its distance from the newest one: [T-n], ..., [T-1]. *)
Definition offsetLabels (n : nat) : list string :=
  (fun k => "T-" +:+ pretty (Z.of_nat k)) <$> reverse (seq 1 n).

(** The stored results of a state, history first. *)
Definition stored (s : State) : list SentimentResult :=
  history s ++ results s.

(** The invariant behind the uniqueness of ids: every stored result carries
    the value of a draw already made, neither collection repeats an id, and
    two stored results with one id are one and the same result. *)
Definition drawn (randomUUID : nat -> string) (s : State)
  (r : SentimentResult) : Prop :=
  exists k, k < draws s /\ id r = randomUUID k.

Definition identityInv (randomUUID : nat -> string) (s : State) : Prop :=
  Forall (drawn randomUUID s) (stored s)
  /\ NoDup (id <$> history s)
  /\ NoDup (id <$> results s)
  /\ (forall r1 r2, r1 ∈ stored s -> r2 ∈ stored s -> id r1 = id r2 -> r1 = r2).


(** A request as the component issues them: an analysis request carries
    between one and ten texts, none of them blank. *)
Definition wellFormedCall (c : Call) : Prop :=
  match c with
  | AnalyzeCall texts _ =>
      0 < length texts <= 10 /\ Forall (fun t => JsString.blank t = false) texts
  | ImproveCall _ => True
  end.

(** A run in which the archives are never cleared. *)
Definition neverCleared (es : list Event) : Prop :=
  Forall (fun e => e <> ClickClearArchives) es.

(** What ties the hooks of [useDebounce] together: a pending timer holds
    the current text and is due at most one delay from now; with no timer
    pending the settled value is the current text. *)
Definition debounceInv (s : State) : Prop :=
  match timer s with
  | Some (due, v) => v = inputText s /\ due <= now s + 1500
  | None => debouncedInput s = inputText s
  end.

(** All analyses of a set of results, and all keyword occurrences. *)
Definition allAnalyses (data : list SentimentResult) : list SentimentAnalysis :=
  concat (analyses <$> data).

Definition keywordOccurrences (history : list SentimentResult) : list string :=
  concat (keywords <$> allAnalyses history).

(** The ways the answer to a provider request cannot be used: the request
    is rejected, or the text is missing, blank, or not parsable. *)
Inductive Unusable {A} (parse : string -> option A) : GenResponse -> Prop :=
  | unusable_rejected : Unusable parse GenRejects
  | unusable_no_text : Unusable parse (GenText None)
  | unusable_blank t :
      JsString.trim t = "" -> Unusable parse (GenText (Some t))
  | unusable_unparsable t :
      parse (JsString.trim t) = None -> Unusable parse (GenText (Some t)).

(** The value [counts[k]] holds among the own properties. *)
Fixpoint assoc (k : string) (counts : list (string * KeywordTotals))
  : option KeywordTotals :=
  match counts with
  | [] => None
  | (k', v) :: rest => if String.eqb k' k then Some v else assoc k rest
  end.

Definition countOf (k : string) (counts : list (string * KeywordTotals)) : nat :=
  from_option kw_count 0 (assoc k counts).

(** Every keyword occurrence of a history with the confidence of its
    analysis, in the order the loops visit them. *)
Definition occurrencesWithConf (history : list SentimentResult)
  : list (string * Q) :=
  concat ((fun a => (fun kw => (kw, confidence a)) <$> keywords a)
            <$> allAnalyses history).

(** How often a keyword occurs in the analyses of a history. *)
Definition occurrenceCount (k : string) (history : list SentimentResult)
  : nat :=
  length (List.filter (String.eqb k) (keywordOccurrences history)).

(** The order of the bubble list: no smaller frequency before a larger. *)
Definition byFrequency (a b : Bubble) : Prop := bubble_x b <= bubble_x a.

(** Whether a character occurs in a string. *)
Fixpoint occursIn (c : ascii) (s : string) : bool :=
  match s with
  | "" => false
  | String c' r => Ascii.eqb c' c || occursIn c r
  end.

(** *** The upload rule, in the words of the interface description *)











(** ** Sample platform services and data *)

Module Sample.

Definition analysis (v : string) (c : Q) : SentimentAnalysis :=
  {| provider := "FLASH"; sentiment := v; confidence := c;
     keywords := ["late"; "delivery"; "quality"];
     explanation := "tone of the wording" |}.

Definition complaint : string :=
  "The delivery was late twice and nobody answered.".

Definition praise : string :=
  "Everything works smoothly and fast, thank you!".

Definition rawComplaint : RawResult :=
  {| raw_text := complaint; raw_analyses := [analysis "Negative" (9 # 10)] |}.

Definition rawPraise : RawResult :=
  {| raw_text := praise; raw_analyses := [analysis "Positive" (4 # 5)] |}.

Definition rewrite : Suggestion :=
  {| improvedText := "The delivery took longer than planned.";
     wordChanges := [("late", "longer than planned")];
     reasoning := "Neutral wording keeps the message." |}.

(** A parser that reads every answer as the same two results. *)
Definition parseResults (js : string) : option (list RawResult) :=
  Some [rawComplaint; rawPraise].

Definition parseSuggestion (js : string) : option Suggestion := Some rewrite.

(** A generator that never repeats: the decimal rendering of the draw. *)
Definition uuid (n : nat) : string := pretty n.

Definition iso (t : nat) : string := "2026-01-01T00:00:00.000Z".

Definition answer : GenResponse := GenText (Some " [two results] ").

(** A text file none of whose lines is longer than five characters. *)
Definition shortNotes : File :=
  {| file_name := "notes.txt";
     file_content := "ok" +:+ String (ascii_of_nat 10) "fine" |}.

(** A delimited file: a quoted field followed by a score, then a short
    quoted field. *)
Definition feedbackCsv : File :=
  {| file_name := "feedback.csv";
     file_content :=
       String JsString.quote
         ("Great service" +:+
          String JsString.quote
            (",5" +:+
             String (ascii_of_nat 10)
               (String JsString.quote ("ok" +:+ String JsString.quote "")))) |}.

(** A plain text file: a padded line with a comma, then a short line. *)
Definition reviewsTxt : File :=
  {| file_name := "reviews.txt";
     file_content :=
       "  Great service, really  " +:+ String (ascii_of_nat 10) "ok" |}.

(** One change, a pause shorter than the delay, then the complaint. *)
Definition typing : list (string * nat) := [("The delivery was late", 400)].

Definition entry (i : string) (l : list SentimentAnalysis) : SentimentResult :=
  {| id := i; text := complaint; timestamp := iso 0; analyses := l |}.

(** A parser that reads every answer as an empty array. *)
Definition parseNothing (js : string) : option (list RawResult) := Some [].

(** The state once the two sample results have arrived. *)
Definition loaded : State :=
  run parseResults parseSuggestion uuid iso initial [AnalysisSettles answer].

(** The state once the complaint has been typed. *)
Definition typed : State :=
  step parseResults parseSuggestion uuid iso initial (ChangeInput complaint).

Definition tagged (kws : list string) : SentimentResult :=
  entry "k0"
    [ {| provider := "FLASH"; sentiment := "Neutral"; confidence := 1 # 2;
         keywords := kws; explanation := "keywords only" |} ].

(** Eleven keywords, the last of them seen once and the others twice. *)
Definition crowded : list SentimentResult :=
  [ tagged ["a"; "b"; "c"; "d"; "e"; "f"; "g"; "h"; "i"; "j"; "k"];
    tagged ["a"; "b"; "c"; "d"; "e"; "f"; "g"; "h"; "i"; "j"] ].

End Sample.

(** ** Facts about the string primitives *)

Module JsStringFacts.
Import JsString.

Lemma split_nonempty sep s : split sep s <> [].
Proof.
  destruct s as [|c r]; simpl; [discriminate|].
  destruct (Ascii.eqb c sep); [discriminate|].
  destruct (split sep r); discriminate.
Qed.

Lemma trimStart_shape s :
  trimStart s = "" \/
  exists c r, trimStart s = String c r /\ is_space c = false.
Proof.
  induction s as [|c r IH]; simpl; [by left|].
  destruct (is_space c) eqn:Hc; [exact IH|].
  right. by exists c, r.
Qed.

Lemma trimEnd_keeps_head c r :
  is_space c = false -> trimEnd (String c r) = String c (trimEnd r).
Proof. intros Hc. simpl. by rewrite Hc. Qed.

(** A trimmed string is empty or starts with a character that is not
    white space. *)
Lemma trim_shape s :
  trim s = "" \/ exists c r, trim s = String c r /\ is_space c = false.
Proof.
  unfold trim.
  destruct (trimStart_shape s) as [->|(c & r & -> & Hc)]; [by left|].
  right. exists c, (trimEnd r). by rewrite trimEnd_keeps_head.
Qed.

Lemma trimStart_fixed c r :
  is_space c = false -> trimStart (String c r) = String c r.
Proof. intros Hc. simpl. by rewrite Hc. Qed.

Lemma trimEnd_idemp s : trimEnd (trimEnd s) = trimEnd s.
Proof.
  induction s as [|c r IH]; simpl; [done|].
  destruct (is_space c && is_empty (trimEnd r)) eqn:E; simpl; [done|].
  by rewrite IH, E.
Qed.

Lemma trim_idemp s : trim (trim s) = trim s.
Proof.
  destruct (trim_shape s) as [->|(c & r & E & Hc)]; [done|].
  rewrite E. unfold trim at 1. rewrite trimStart_fixed by done.
  rewrite <- E. unfold trim. apply trimEnd_idemp.
Qed.

(** A trimmed string that is not empty passes the blank test. *)
Lemma blank_trim s : 0 < String.length (trim s) -> blank (trim s) = false.
Proof.
  intros Hlen. unfold blank. rewrite trim_idemp.
  destruct (trim s); simpl in *; [lia|done].
Qed.

Lemma blank_false_of_long n s :
  n < String.length (trim s) -> blank s = false.
Proof. unfold blank. destruct (trim s); simpl; [lia|done]. Qed.

Lemma dropFinalQuote_snoc s :
  dropFinalQuote (s +:+ String quote "") = s.
Proof.
  induction s as [|c r IH]; [reflexivity|].
  change (String c r +:+ String quote "")
    with (String c (r +:+ String quote "")).
  simpl. rewrite IH. by destruct r.
Qed.

(** A field wrapped in one pair of quotes loses exactly that pair. *)
Lemma stripQuotes_pair s :
  stripQuotes (String quote (s +:+ String quote "")) = s.
Proof. simpl. apply dropFinalQuote_snoc. Qed.

Lemma dropFinalQuote_none s :
  lastIsQuote s = false -> dropFinalQuote s = s.
Proof.
  induction s as [|c r IH]; [done|].
  destruct r as [|c' r']; simpl in *.
  - by intros ->.
  - intros H. by rewrite IH.
Qed.

(** A field with no quote at either end is left as it is. *)
Lemma stripQuotes_bare c r :
  Ascii.eqb c quote = false -> lastIsQuote (String c r) = false ->
  stripQuotes (String c r) = String c r.
Proof.
  intros Hc Hl. unfold stripQuotes. rewrite Hc.
  by apply dropFinalQuote_none.
Qed.

End JsStringFacts.

(** ** The analysis request coordinator *)

Section CoordinatorFacts.

Variable JSON_parse_results : string -> option (list RawResult).
Variable JSON_parse_suggestion : string -> option Suggestion.
Variable randomUUID : nat -> string.
Variable toISOString : nat -> string.

Abbreviation analyze := (analyzeSentiment JSON_parse_results randomUUID toISOString).
Abbreviation resume :=
  (handleAnalysis_resume JSON_parse_results randomUUID toISOString).
Abbreviation stamped := (stamp randomUUID toISOString).

Lemma jsonStr_Some r js :
  jsonStr r = Some js <->
  exists t, r = Some t /\ js = JsString.trim t /\ JsString.trim t <> "".
Proof.
  unfold jsonStr. destruct r as [t|]; simpl.
  - destruct (JsString.trim t) eqn:E; simpl; split.
    + discriminate.
    + intros (t' & [= <-] & -> & Hne). by rewrite E in Hne.
    + intros [= <-]. exists t. by rewrite E.
    + intros (t' & [= <-] & -> & _). by rewrite E.
  - split; [discriminate|]. by intros (t & ? & _).
Qed.

Lemma jsonStr_None r :
  jsonStr r = None <-> r = None \/ exists t, r = Some t /\ JsString.trim t = "".
Proof.
  unfold jsonStr. destruct r as [t|]; simpl.
  - destruct (JsString.trim t) eqn:E; simpl; split; try done.
    + intros _. right. by exists t.
    + intros [|(t' & [= <-] & Ht)]; [done|]. by rewrite E in Ht.
  - split; [by left|done].
Qed.

Lemma stamp_length d t raws : length (stamped d t raws) = length raws.
Proof. unfold stamp. apply length_imap. Qed.

Lemma stamp_lookup d t raws i :
  stamped d t raws !! i =
  (fun r => {| id := randomUUID (d + i); text := raw_text r;
               timestamp := toISOString t; analyses := raw_analyses r |})
    <$> raws !! i.
Proof. unfold stamp. apply list_lookup_imap. Qed.

(** Stamping keeps the texts and analyses of the answer, in its order. *)
Lemma stamp_payload d t raws :
  (fun r => (text r, analyses r)) <$> stamped d t raws =
  (fun r => (raw_text r, raw_analyses r)) <$> raws.
Proof.
  apply list_eq. intros i. rewrite !list_lookup_fmap, stamp_lookup.
  by destruct (raws !! i).
Qed.

Lemma analyze_returns resp raws d t :
  providerReturns JSON_parse_results resp raws ->
  analyze resp d t = (Fulfilled (stamped d t raws), d + length raws).
Proof.
  intros (txt & -> & Hne & Hp). unfold analyzeSentiment.
  assert (jsonStr (Some txt) = Some (JsString.trim txt)) as ->.
  { apply jsonStr_Some. by exists txt. }
  by rewrite Hp.
Qed.

Lemma analyze_fulfilled_inv resp d t new d' :
  analyze resp d t = (Fulfilled new, d') ->
  exists raws, providerReturns JSON_parse_results resp raws
               /\ new = stamped d t raws /\ d' = d + length raws.
Proof.
  unfold analyzeSentiment. destruct resp as [|r]; [discriminate|].
  destruct (jsonStr r) as [js|] eqn:Hjs; [|discriminate].
  destruct (JSON_parse_results js) as [raws|] eqn:Hp; [|discriminate].
  intros [= <- <-]. exists raws. split; [|done].
  apply jsonStr_Some in Hjs as (txt & -> & -> & Hne). by exists txt.
Qed.

(** The call is rejected exactly in the failure cases. *)
Lemma analyze_rejected_iff resp d t :
  ProviderFails JSON_parse_results resp <->
  exists reason, analyze resp d t = (Rejected reason, d).
Proof.
  split.
  - intros [| |txt Ht|txt Hp]; unfold analyzeSentiment; eauto.
    + assert (jsonStr (Some txt) = None) as ->; [|eauto].
      apply jsonStr_None. right. by exists txt.
    + destruct (jsonStr (Some txt)) as [js|] eqn:Hjs; [|eauto].
      apply jsonStr_Some in Hjs as (t' & [= <-] & -> & _).
      rewrite Hp. eauto.
  - intros [reason H]. unfold analyzeSentiment in H.
    destruct resp as [|r]; [constructor|].
    destruct (jsonStr r) as [js|] eqn:Hjs.
    + apply jsonStr_Some in Hjs as (txt & -> & -> & _).
      destruct (JSON_parse_results (JsString.trim txt)) eqn:Hp;
        [discriminate|]. by apply fails_unparsable.
    + apply jsonStr_None in Hjs as [->|(txt & -> & Ht)];
        [constructor|by apply fails_blank].
Qed.

(** The synchronous part of [handleAnalysis] never touches the store. *)
Lemma handleAnalysis_store texts s :
  results (handleAnalysis texts s) = results s
  /\ history (handleAnalysis texts s) = history s.
Proof.
  unfold handleAnalysis.
  by destruct ((length texts =? 0) || forallb JsString.blank texts).
Qed.

(** C1. When the provider call of [handleAnalysis] succeeds with the
    answer [raws], then right after the continuation has run the current
    results are the stamped answer, carrying the texts and analyses of
    [raws] in the order returned; the first [length raws] entries of the
    history are these same results in the same order, and the history
    that was there before follows them unchanged. *)
Theorem handleAnalysis_success_replaces_and_prepends s resp raws :
  providerReturns JSON_parse_results resp raws ->
  let s' := resume resp s in
  results s' = stamped (draws s) (now s) raws
  /\ (fun r => (text r, analyses r)) <$> results s'
     = (fun r => (raw_text r, raw_analyses r)) <$> raws
  /\ length (results s') = length raws
  /\ take (length (results s')) (history s') = results s'
  /\ drop (length (results s')) (history s') = history s.
Proof.
  intros Hret. unfold handleAnalysis_resume.
  rewrite (analyze_returns _ _ _ _ Hret). simpl.
  split; [done|]. split; [apply stamp_payload|].
  split; [apply stamp_length|].
  split; [by rewrite take_app_length|by rewrite drop_app_length].
Qed.

(** C2. When the provider call fails (it throws, or its content is
    missing, blank or cannot be parsed), the continuation of
    [handleAnalysis] sets the error message and clears the loading flag,
    and the current results and the history are those the call found on
    entry. *)
Theorem handleAnalysis_failure_keeps_store s texts resp :
  ProviderFails JSON_parse_results resp ->
  let s' := resume resp (handleAnalysis texts s) in
  error s' = Some "Analysis failed. Verify your connection or API key."
  /\ results s' = results s
  /\ history s' = history s
  /\ isLoading s' = false
  /\ (forall s0, results (resume resp s0) = results s0
                 /\ history (resume resp s0) = history s0).
Proof.
  intros Hfail.
  assert (forall s0, error (resume resp s0)
                     = Some "Analysis failed. Verify your connection or API key."
                     /\ results (resume resp s0) = results s0
                     /\ history (resume resp s0) = history s0
                     /\ isLoading (resume resp s0) = false) as Hres.
  { intros s0. unfold handleAnalysis_resume.
    destruct (proj1 (analyze_rejected_iff resp (draws s0) (now s0)) Hfail)
      as [reason ->]. by simpl. }
  simpl. destruct (Hres (handleAnalysis texts s)) as (He & Hr & Hh & Hl).
  destruct (handleAnalysis_store texts s) as [Hr0 Hh0].
  rewrite He, Hr, Hh, Hl, Hr0, Hh0. repeat split; apply Hres.
Qed.

End CoordinatorFacts.

(** ** The event loop: guide flag, tone session, bulk upload *)



Lemma handleAnalysis_captured_current texts s :
  handleAnalysis_captured (selectedProvider s) texts s = handleAnalysis texts s.
Proof. reflexivity. Qed.

Ltac unfold_handlers :=
  unfold step, insertExample, changeInput, useDebounce_effect, manualAnalyze,
    onFileUpload, fileRead, reader_onload, handleAnalysis_captured,
    clickReframe, handleImproveRequest,
    handleImproveRequest_resume, handleAnalysis_resume, elapse, timerFires,
    autoAnalysis, handleAnalysis in *.

Section LoopFacts.

Variable JSON_parse_results : string -> option (list RawResult).
Variable JSON_parse_suggestion : string -> option Suggestion.
Variable randomUUID : nat -> string.
Variable toISOString : nat -> string.

Abbreviation analyze' :=
  (analyzeSentiment JSON_parse_results randomUUID toISOString).
Abbreviation resume' :=
  (handleAnalysis_resume JSON_parse_results randomUUID toISOString).
Abbreviation improve_resume :=
  (handleImproveRequest_resume JSON_parse_suggestion).
Abbreviation step' :=
  (step JSON_parse_results JSON_parse_suggestion randomUUID toISOString).
Abbreviation run' :=
  (run JSON_parse_results JSON_parse_suggestion randomUUID toISOString).

(** Only the two help buttons can raise the guide flag. *)
Lemma step_keeps_guide_off s e :
  e <> ClickHelpCircle -> e <> ClickHelpCenter ->
  showGuide s = false -> showGuide (step' s e) = false.
Proof.
  intros H1 H2 Hoff.
  destruct e; try done; unfold_handlers; simpl;
    repeat case_match; simpl; done.
Qed.

(** C9, as the code has it. Every successful analysis switches the
    first-run guide off, and no event other than a click on one of the two
    help buttons switches it on again: once off, the flag stays off
    through every other event.  The help button sets it, and the Help
    Center button toggles it. *)
Theorem guide_off_until_help_is_clicked :
  (forall s resp raws,
      providerReturns JSON_parse_results resp raws ->
      showGuide (step' s (AnalysisSettles resp)) = false)
  /\ (forall s e,
        e <> ClickHelpCircle -> e <> ClickHelpCenter ->
        showGuide s = false -> showGuide (step' s e) = false)
  /\ (forall s, showGuide (step' s ClickHelpCircle) = true)
  /\ (forall s, showGuide (step' s ClickHelpCenter) = negb (showGuide s)).
Proof.
  split; [|split; [exact step_keeps_guide_off|by split]].
  intros s resp raws Hret. simpl. unfold handleAnalysis_resume.
  by rewrite (analyze_returns _ _ _ _ _ _ _ Hret).
Qed.

(** C3, as the code has it. A session is opened, dismissed while its
    request is in flight, and the answer arrives afterwards. The answer
    does not reopen the session: the captured source stays cleared, so the
    modal stays closed and nothing is shown. The suggestion of a
    successful late answer is stored all the same, and stays stored until
    the next session starts, which clears it. *)
Theorem stale_improvement_keeps_session_closed s rid rtext resp :
  let s1 := handleImproveRequest rid rtext s in
  let s2 := step' s1 ClickDismiss in
  let s3 := step' s2 (ImprovementSettles resp) in
  sessionView s3 = Closed
  /\ improvingText s3 = None
  /\ isImproving s3 = false
  /\ suggestion s3 =
       match getImprovementSuggestions JSON_parse_suggestion resp with
       | Fulfilled data => Some data
       | Rejected _ => None
       end
  /\ (forall rid' rtext',
        suggestion (handleImproveRequest rid' rtext' s3) = None
        /\ sessionView (handleImproveRequest rid' rtext' s3) = Requesting).
Proof.
  simpl. unfold handleImproveRequest_resume, sessionView.
  destruct (getImprovementSuggestions JSON_parse_suggestion resp); by simpl.
Qed.

(** An upload none of whose lines survives issues no request and raises no
    error, and leaves the loading flag as [onFileUpload] set it. *)
Lemma upload_without_survivors s file :
  uploadLines (file_name file) (file_content file) = [] ->
  let s' := run' s [ChooseFile (Some file); FileRead file] in
  calls s' = calls s /\ error s' = error s /\ isLoading s' = true.
Proof.
  intros H. simpl. unfold fileRead, reader_onload. rewrite H. simpl.
  by repeat case_match.
Qed.

End LoopFacts.

(** ** The debounced input controller *)

Section DebounceFacts.

Variable JSON_parse_results : string -> option (list RawResult).
Variable JSON_parse_suggestion : string -> option Suggestion.
Variable randomUUID : nat -> string.
Variable toISOString : nat -> string.

Abbreviation step_ :=
  (step JSON_parse_results JSON_parse_suggestion randomUUID toISOString).
Abbreviation run_ :=
  (run JSON_parse_results JSON_parse_suggestion randomUUID toISOString).

Lemma issued_app s s' l : calls s' = calls s ++ l -> issued s s' = l.
Proof. intros E. unfold issued. rewrite E. apply drop_app_length. Qed.

Lemma issued_none s s' : calls s' = calls s -> issued s s' = [].
Proof. intros E. apply issued_app. by rewrite app_nil_r. Qed.

Lemma handleAnalysis_single v s :
  0 < String.length (JsString.trim v) ->
  calls (handleAnalysis [v] s) = calls s ++ [AnalyzeCall [v] (selectedProvider s)]
  /\ lastAnalyzedText (handleAnalysis [v] s) = lastAnalyzedText s.
Proof.
  intros Hlen. unfold handleAnalysis. simpl.
  by rewrite (JsStringFacts.blank_false_of_long 0 v Hlen).
Qed.

(** The effect issues one request for the settled value when the trigger
    condition holds, after recording the value in the tracker. *)
Lemma autoAnalysis_trigger s :
  autoTrigger s ->
  calls (autoAnalysis s)
  = calls s ++ [AnalyzeCall [debouncedInput s] (selectedProvider s)]
  /\ lastAnalyzedText (autoAnalysis s) = debouncedInput s.
Proof.
  intros [Hlen Hne]. unfold autoAnalysis.
  apply Nat.ltb_lt in Hlen as Hlt. rewrite Hlt.
  apply String.eqb_neq in Hne as ->. simpl.
  apply (handleAnalysis_single (debouncedInput s)
           (setLastAnalyzedText (debouncedInput s) s)). lia.
Qed.

Lemma autoAnalysis_idle s : ~ autoTrigger s -> autoAnalysis s = s.
Proof.
  intros Hno. unfold autoAnalysis.
  destruct (20 <? String.length (JsString.trim (debouncedInput s))) eqn:Hlt;
    [|done].
  destruct (String.eqb (debouncedInput s) (lastAnalyzedText s)) eqn:Heq;
    [done|].
  exfalso. apply Hno. split; [by apply Nat.ltb_lt|by apply String.eqb_neq].
Qed.

(** A value that is the tracked one settles without a request. *)
Lemma timerFires_tracked s v :
  lastAnalyzedText s = v -> calls (timerFires v s) = calls s.
Proof.
  intros Htr. unfold timerFires. simpl.
  destruct (String.eqb v (debouncedInput s)); [done|].
  rewrite autoAnalysis_idle; [done|].
  intros [_ Hne]. simpl in Hne. congruence.
Qed.

Lemma manualAnalyze_tracks s :
  JsString.blank (inputText s) = false ->
  lastAnalyzedText (manualAnalyze s) = inputText s
  /\ calls (manualAnalyze s)
     = calls s ++ [AnalyzeCall [inputText s] (selectedProvider s)].
Proof.
  intros Hb. unfold manualAnalyze, handleAnalysis. rewrite Hb. simpl.
  by rewrite Hb.
Qed.

(** A change of the text rearms the timer and touches nothing else that
    the trigger depends on. *)
Lemma changeInput_arms s v :
  v <> inputText s ->
  let s' := changeInput v s in
  timer s' = Some (now s + 1500, v) /\ now s' = now s /\ inputText s' = v
  /\ calls s' = calls s /\ selectedProvider s' = selectedProvider s
  /\ debouncedInput s' = debouncedInput s
  /\ lastAnalyzedText s' = lastAnalyzedText s.
Proof.
  intros Hne. unfold changeInput.
  apply String.eqb_neq in Hne as ->. by simpl.
Qed.

Lemma elapse_before_due s due v g :
  timer s = Some (due, v) -> now s + g < due ->
  elapse g s = setNow (now s + g) s.
Proof.
  intros Ht Hlt. unfold elapse. simpl. rewrite Ht.
  destruct (due <=? now s + g) eqn:E; [|done].
  apply Nat.leb_le in E. lia.
Qed.

(** During a run of changes that follow one another within the delay,
    nothing settles. *)
Lemma burst_is_quiet vn edits : forall s,
  changing (inputText s) (edits.*1 ++ [vn]) ->
  Forall (fun e => e.2 < 1500) edits ->
  let s1 := run_ s (burst edits ++ [ChangeInput vn]) in
  calls s1 = calls s /\ selectedProvider s1 = selectedProvider s
  /\ timer s1 = Some (now s1 + 1500, vn).
Proof.
  induction edits as [|[v g] rest IH]; intros s Hch Hgaps.
  - destruct Hch as [Hne _]. simpl.
    destruct (changeInput_arms s vn Hne) as (Ht & Hn & _ & Hc & Hp & _).
    by rewrite Ht, Hn.
  - destruct Hch as [Hne Hch]. apply Forall_cons in Hgaps as [Hg Hgaps].
    simpl in Hg.
    destruct (changeInput_arms s v Hne) as (Ht & Hn & Hi & Hc & Hp & _).
    set (s0 := changeInput v s) in *.
    assert (elapse g s0 = setNow (now s0 + g) s0) as Hel.
    { apply (elapse_before_due s0 (now s + 1500) v); [done|lia]. }
    change (run_ s (burst ((v, g) :: rest) ++ [ChangeInput vn]))
      with (run_ (elapse g s0) (burst rest ++ [ChangeInput vn])).
    rewrite Hel. cbv zeta.
    destruct (IH (setNow (now s0 + g) s0)) as (Hc' & Hp' & Ht');
      [by simpl; rewrite Hi|done|].
    rewrite Hc', Hp', Ht'. simpl. by rewrite Hc, Hp.
Qed.

Lemma quiet_without_timer ds : forall s,
  timer s = None -> calls (run_ s (Elapse <$> ds)) = calls s.
Proof.
  induction ds as [|d ds IH]; intros s Ht; [done|].
  change (run_ s (Elapse <$> d :: ds))
    with (run_ (elapse d s) (Elapse <$> ds)).
  assert (elapse d s = setNow (now s + d) s) as ->.
  { unfold elapse. simpl. by rewrite Ht. }
  by rewrite IH.
Qed.

(** Once the changes stop, the armed timer fires at most once, and the
    only request it can issue is for the value it holds. *)
Lemma settle_once v ds : forall s due,
  timer s = Some (due, v) ->
  let s' := run_ s (Elapse <$> ds) in
  calls s' = calls s
  \/ calls s' = calls s ++ [AnalyzeCall [v] (selectedProvider s)].
Proof.
  induction ds as [|d ds IH]; intros s due Ht; [by left|].
  change (run_ s (Elapse <$> d :: ds))
    with (run_ (elapse d s) (Elapse <$> ds)).
  destruct (due <=? now s + d) eqn:Hdue.
  - assert (elapse d s = timerFires v (setNow (now s + d) s)) as ->.
    { unfold elapse. simpl. by rewrite Ht, Hdue. }
    set (s0 := setNow (now s + d) s).
    assert (timer (timerFires v s0) = None
            /\ (calls (timerFires v s0) = calls s
                \/ calls (timerFires v s0)
                   = calls s ++ [AnalyzeCall [v] (selectedProvider s)]))
      as [Hnone Hcalls].
    { unfold timerFires. simpl.
      destruct (String.eqb v (debouncedInput s)); [by split; [|left]|].
      set (s1 := setDebouncedValue v (setTimer None s0)).
      destruct (decide (autoTrigger s1)) as [Hyes|Hno].
      - destruct (autoAnalysis_trigger s1 Hyes) as [Hc _].
        split; [|by right].
        unfold autoAnalysis, handleAnalysis. by repeat case_match.
      - rewrite (autoAnalysis_idle s1 Hno). by split; [|left]. }
    cbv zeta. rewrite (quiet_without_timer ds _ Hnone). exact Hcalls.
  - apply Nat.leb_gt in Hdue.
    rewrite (elapse_before_due s due v d Ht) by lia.
    exact (IH (setNow (now s + d) s) due Ht).
Qed.

(** Only a change of the text, a firing timer and the clock touch the
    hooks of [useDebounce]. *)
Lemma autoAnalysis_debounce_frame s :
  timer (autoAnalysis s) = timer s
  /\ inputText (autoAnalysis s) = inputText s
  /\ debouncedInput (autoAnalysis s) = debouncedInput s
  /\ now (autoAnalysis s) = now s.
Proof. unfold autoAnalysis, handleAnalysis. by repeat case_match. Qed.

Lemma timerFires_settles s v :
  timer (timerFires v s) = None
  /\ inputText (timerFires v s) = inputText s
  /\ debouncedInput (timerFires v s) = v
  /\ now (timerFires v s) = now s.
Proof.
  unfold timerFires. simpl.
  destruct (String.eqb v (debouncedInput s)) eqn:E.
  - apply String.eqb_eq in E. by simpl.
  - by destruct (autoAnalysis_debounce_frame
                   (setDebouncedValue v (setTimer None s)))
      as (-> & -> & -> & ->).
Qed.

(** A run of quick changes leaves the settled value and the tracker as
    they were. *)
Lemma burst_keeps_settled vn edits : forall s,
  changing (inputText s) (edits.*1 ++ [vn]) ->
  Forall (fun e => e.2 < 1500) edits ->
  let s1 := run_ s (burst edits ++ [ChangeInput vn]) in
  debouncedInput s1 = debouncedInput s
  /\ lastAnalyzedText s1 = lastAnalyzedText s.
Proof.
  induction edits as [|[v g] rest IH]; intros s Hch Hgaps.
  - destruct Hch as [Hne _]. simpl.
    by destruct (changeInput_arms s vn Hne) as (_ & _ & _ & _ & _ & Hd & Hl).
  - destruct Hch as [Hne Hch]. apply Forall_cons in Hgaps as [Hg Hgaps].
    simpl in Hg.
    destruct (changeInput_arms s v Hne) as (Ht & Hn & Hi & _ & _ & Hd & Hl).
    set (s0 := changeInput v s) in *.
    assert (elapse g s0 = setNow (now s0 + g) s0) as Hel.
    { apply (elapse_before_due s0 (now s + 1500) v); [done|lia]. }
    change (run_ s (burst ((v, g) :: rest) ++ [ChangeInput vn]))
      with (run_ (elapse g s0) (burst rest ++ [ChangeInput vn])).
    rewrite Hel. cbv zeta.
    destruct (IH (setNow (now s0 + g) s0)) as (Hd' & Hl');
      [by simpl; rewrite Hi|done|].
    rewrite Hd', Hl'. simpl. by rewrite Hd, Hl.
Qed.

(** What the timer callback does to the requests and the tracker. *)
Lemma timerFires_new s v :
  v <> debouncedInput s ->
  (20 < String.length (JsString.trim v) /\ v <> lastAnalyzedText s ->
   calls (timerFires v s) = calls s ++ [AnalyzeCall [v] (selectedProvider s)]
   /\ lastAnalyzedText (timerFires v s) = v)
  /\ (~ (20 < String.length (JsString.trim v) /\ v <> lastAnalyzedText s) ->
      calls (timerFires v s) = calls s
      /\ lastAnalyzedText (timerFires v s) = lastAnalyzedText s).
Proof.
  intros Hnew. apply String.eqb_neq in Hnew as Hb.
  assert (timerFires v s = autoAnalysis (setDebouncedValue v (setTimer None s)))
    as ->.
  { unfold timerFires. simpl. by rewrite Hb. }
  set (s0 := setDebouncedValue v (setTimer None s)).
  split; intros Hcond.
  - by destruct (autoAnalysis_trigger s0 Hcond) as [Hc Ht].
  - by rewrite (autoAnalysis_idle s0 Hcond).
Qed.

Lemma timerFires_same s v :
  v = debouncedInput s ->
  calls (timerFires v s) = calls s
  /\ lastAnalyzedText (timerFires v s) = lastAnalyzedText s
  /\ debouncedInput (timerFires v s) = debouncedInput s.
Proof.
  intros ->. unfold timerFires. simpl. by rewrite String.eqb_refl.
Qed.

(** C4, as the code has it. The trigger is decided when the settled value
    changes, not whenever a text settles. When it changes to [v], one
    request for [v] alone is issued exactly when [v] trimmed is longer
    than 20 characters and [v] is not the tracked text (the last text
    submitted by the automatic or the manual path), and the tracker holds
    [v] as soon as the request is out; otherwise nothing is issued and the
    tracker is kept. A text that settles while it already is the settled
    value issues nothing, whatever the tracker holds. A value equal to the
    tracked text settles without a request, and a manual submission tracks
    its text too. A run of changes, each less than 1500 after the one
    before, issues nothing while it lasts; whatever time passes afterwards
    at most one request is issued, for the last value of the run; and once
    1500 or more has passed, that request has been issued exactly when the
    last value is new as settled value, long enough and untracked, and
    further waiting adds nothing. *)
Theorem auto_analysis_on_settled_change :
  (forall s v,
      v <> debouncedInput s ->
      let s' := timerFires v s in
      (20 < String.length (JsString.trim v) /\ v <> lastAnalyzedText s ->
       issued s s' = [AnalyzeCall [v] (selectedProvider s)]
       /\ lastAnalyzedText s' = v)
      /\ (~ (20 < String.length (JsString.trim v) /\ v <> lastAnalyzedText s) ->
          issued s s' = [] /\ lastAnalyzedText s' = lastAnalyzedText s))
  /\ (forall s v,
        v = debouncedInput s ->
        issued s (timerFires v s) = []
        /\ lastAnalyzedText (timerFires v s) = lastAnalyzedText s)
  /\ (forall s v, lastAnalyzedText s = v -> issued s (timerFires v s) = [])
  /\ (forall s,
        JsString.blank (inputText s) = false ->
        lastAnalyzedText (manualAnalyze s) = inputText s
        /\ issued (manualAnalyze s) (timerFires (inputText s) (manualAnalyze s))
           = [])
  /\ (forall s edits vn ds,
        changing (inputText s) (edits.*1 ++ [vn]) ->
        Forall (fun e => e.2 < 1500) edits ->
        let s1 := run_ s (burst edits ++ [ChangeInput vn]) in
        let s2 := run_ s1 (Elapse <$> ds) in
        issued s s1 = []
        /\ (issued s s2 = []
            \/ issued s s2 = [AnalyzeCall [vn] (selectedProvider s)]))
  /\ (forall s edits vn d ds,
        changing (inputText s) (edits.*1 ++ [vn]) ->
        Forall (fun e => e.2 < 1500) edits ->
        1500 <= d ->
        let s1 := run_ s (burst edits ++ [ChangeInput vn]) in
        let s2 := step_ s1 (Elapse d) in
        let s3 := run_ s2 (Elapse <$> ds) in
        (vn <> debouncedInput s
         /\ 20 < String.length (JsString.trim vn)
         /\ vn <> lastAnalyzedText s ->
         issued s s2 = [AnalyzeCall [vn] (selectedProvider s)]
         /\ lastAnalyzedText s2 = vn)
        /\ (~ (vn <> debouncedInput s
               /\ 20 < String.length (JsString.trim vn)
               /\ vn <> lastAnalyzedText s) ->
            issued s s2 = [] /\ lastAnalyzedText s2 = lastAnalyzedText s)
        /\ debouncedInput s2 = vn
        /\ issued s s3 = issued s s2).
Proof.
  split; [|split; [|split; [|split; [|split]]]].
  - intros s v Hnew. cbv zeta.
    destruct (timerFires_new s v Hnew) as [Hyes Hno]. split; intros Hcond.
    + destruct (Hyes Hcond) as [Hc Ht]. split; [by apply issued_app|done].
    + destruct (Hno Hcond) as [Hc Ht]. split; [by apply issued_none|done].
  - intros s v Hsame. destruct (timerFires_same s v Hsame) as (Hc & Ht & _).
    split; [by apply issued_none|done].
  - intros s v Htr. apply issued_none. by apply timerFires_tracked.
  - intros s Hb. destruct (manualAnalyze_tracks s Hb) as [Ht _].
    split; [done|]. apply issued_none. by apply timerFires_tracked.
  - intros s edits vn ds Hch Hgaps.
    destruct (burst_is_quiet vn edits s Hch Hgaps) as (Hc & Hp & Ht).
    simpl. split; [by apply issued_none|].
    destruct (settle_once vn ds _ _ Ht) as [H|H]; rewrite Hc, ?Hp in H.
    + left. by apply issued_none.
    + right. by apply issued_app.
  - intros s edits vn d ds Hch Hgaps Hd.
    destruct (burst_is_quiet vn edits s Hch Hgaps) as (Hc & Hp & Ht).
    destruct (burst_keeps_settled vn edits s Hch Hgaps) as (Hdeb & Htr).
    cbv zeta in *.
    set (s1 := run_ s (burst edits ++ [ChangeInput vn])) in *.
    set (s0 := setNow (now s1 + d) s1).
    assert (step_ s1 (Elapse d) = timerFires vn s0) as Hstep.
    { simpl. unfold elapse. fold s0. simpl. rewrite Ht.
      assert ((now s1 + 1500 <=? now s1 + d) = true) as ->
          by (apply Nat.leb_le; lia).
      done. }
    rewrite Hstep.
    destruct (timerFires_settles s0 vn) as (Hnone & _ & Hsettled & _).
    assert (issued s (run_ (timerFires vn s0) (Elapse <$> ds))
            = issued s (timerFires vn s0)) as Hquiet.
    { unfold issued. by rewrite (quiet_without_timer ds _ Hnone). }
    assert (calls s0 = calls s) as Hc1 by exact Hc.
    assert (selectedProvider s0 = selectedProvider s) as Hp1 by exact Hp.
    assert (lastAnalyzedText s0 = lastAnalyzedText s) as Ht1 by exact Htr.
    assert (debouncedInput s0 = debouncedInput s) as Hd1 by exact Hdeb.
    split; [|split; [|split; [exact Hsettled|exact Hquiet]]].
    + intros (Hnew & Hlen & Hne).
      destruct (timerFires_new s0 vn) as [Hyes _]; [by rewrite Hd1|].
      destruct Hyes as [Hc0 Ht0]; [by rewrite Ht1|].
      split; [|done]. apply issued_app. by rewrite Hc0, Hc1, Hp1.
    + intros Hcond.
      destruct (decide (vn = debouncedInput s)) as [Hsame|Hnew].
      * destruct (timerFires_same s0 vn) as (Hc0 & Ht0 & _);
          [by rewrite Hd1|].
        split; [apply issued_none; by rewrite Hc0|by rewrite Ht0].
      * destruct (timerFires_new s0 vn) as [_ Hno]; [by rewrite Hd1|].
        destruct Hno as [Hc0 Ht0].
        { rewrite Ht1. intros [Hlen Hne]. by apply Hcond. }
        split; [apply issued_none; by rewrite Hc0|by rewrite Ht0].
Qed.

End DebounceFacts.

(** ** Identity of results *)

Section IdentityFacts.

Variable JSON_parse_results : string -> option (list RawResult).
Variable JSON_parse_suggestion : string -> option Suggestion.
Variable randomUUID : nat -> string.
Variable toISOString : nat -> string.

Abbreviation step_i :=
  (step JSON_parse_results JSON_parse_suggestion randomUUID toISOString).
Abbreviation reachable_i :=
  (reachable JSON_parse_results JSON_parse_suggestion randomUUID toISOString).
Abbreviation stamp_i := (stamp randomUUID toISOString).
Abbreviation Inv := (identityInv randomUUID).

Lemma stamp_ids d t raws :
  id <$> stamp_i d t raws = randomUUID <$> seq d (length raws).
Proof.
  apply list_eq. intros i. rewrite !list_lookup_fmap, stamp_lookup.
  destruct (raws !! i) as [r|] eqn:Hi; simpl.
  - apply lookup_lt_Some in Hi as Hlt. by rewrite lookup_seq_lt.
  - apply lookup_ge_None in Hi. by rewrite lookup_seq_ge.
Qed.

Lemma stamp_elem d t raws r :
  r ∈ stamp_i d t raws ->
  exists i, i < length raws /\ id r = randomUUID (d + i).
Proof.
  intros Hin. apply list_elem_of_lookup in Hin as [i Hi].
  rewrite stamp_lookup in Hi.
  destruct (raws !! i) as [raw|] eqn:Hraw; [|done].
  injection Hi as <-. exists i. split; [|done].
  by apply lookup_lt_Some in Hraw.
Qed.

Lemma same_id_same_entry (l : list SentimentResult) r1 r2 :
  NoDup (id <$> l) -> r1 ∈ l -> r2 ∈ l -> id r1 = id r2 -> r1 = r2.
Proof.
  intros Hnd H1 H2 Hid.
  apply list_elem_of_lookup in H1 as [i Hi].
  apply list_elem_of_lookup in H2 as [j Hj].
  assert (i = j) as ->; [|congruence].
  apply (NoDup_lookup (id <$> l) i j (id r1)); [done|..];
    rewrite list_lookup_fmap; [by rewrite Hi|by rewrite Hj, Hid].
Qed.

(** Every event but a settled analysis and the clearing of the archives
    leaves the store and the draw count alone. *)
Lemma step_store_frame s e :
  (forall resp, e <> AnalysisSettles resp) -> e <> ClickClearArchives ->
  history (step_i s e) = history s /\ results (step_i s e) = results s
  /\ draws (step_i s e) = draws s.
Proof.
  intros Hs Hc. destruct e; try done;
    try (unfold_handlers; simpl; repeat case_match; by simpl).
  by destruct (Hs resp).
Qed.

Lemma inv_frame s s' :
  history s' = history s -> results s' = results s -> draws s' = draws s ->
  Inv s -> Inv s'.
Proof.
  unfold identityInv, stored, drawn. intros -> -> ->. done.
Qed.

Lemma inv_initial : Inv initial.
Proof.
  unfold identityInv, stored. simpl.
  repeat split; try constructor. intros r1 r2 H. by apply elem_of_nil in H.
Qed.

Section Unique.

Hypothesis uuid_inj : Inj (=) (=) randomUUID.

(** What a successful answer adds: fresh, pairwise distinct ids. *)
Lemma stamp_fresh s raws :
  Inv s ->
  let new := stamp_i (draws s) (now s) raws in
  NoDup (id <$> new)
  /\ (forall r, r ∈ new -> id r ∉ id <$> stored s).
Proof.
  intros (Hdrawn & _). simpl. split.
  - rewrite stamp_ids. apply (NoDup_fmap_2 _). apply NoDup_seq.
  - intros r Hr Hold. apply stamp_elem in Hr as (i & _ & Hid).
    apply list_elem_of_fmap in Hold as (r' & Hid' & Hin).
    rewrite Forall_forall in Hdrawn.
    destruct (Hdrawn r' Hin) as (k & Hk & Hrk).
    assert (draws s + i = k) by (apply uuid_inj; congruence). lia.
Qed.

Lemma inv_success s raws :
  Inv s ->
  let new := stamp_i (draws s) (now s) raws in
  Inv (setIsLoading false
         (setShowGuide false
            (setHistory (new ++ history s)
               (setResults new (setDraws (draws s + length raws) s))))).
Proof.
  intros HI. destruct (stamp_fresh s raws HI) as [Hnd Hfresh].
  destruct HI as (Hdrawn & Hh & _ & Hfun).
  simpl in *. unfold identityInv, stored in *. simpl.
  set (new := stamp_i (draws s) (now s) raws) in *.
  rewrite Forall_forall in Hdrawn.
  assert (forall r, r ∈ history s -> r ∈ history s ++ results s) as Hsub.
  { intros r Hr. apply elem_of_app. by left. }
  assert (forall r, r ∈ new -> r ∈ history s -> False) as Hdisj.
  { intros r Hn Ho. apply (Hfresh r Hn).
    apply list_elem_of_fmap. exists r. auto. }
  assert (forall r, r ∈ (new ++ history s) ++ new ->
                    r ∈ new \/ r ∈ history s) as Hsplit.
  { intros r Hr. rewrite !elem_of_app in Hr. tauto. }
  repeat split.
  - apply Forall_forall. intros r Hr. unfold drawn. simpl.
    destruct (Hsplit r Hr) as [Hn|Ho].
    + apply stamp_elem in Hn as (i & Hi & Hid). exists (draws s + i).
      split; [lia|done].
    + destruct (Hdrawn r (Hsub r Ho)) as (k & Hk & Hid). exists k.
      split; [lia|done].
  - rewrite fmap_app. apply NoDup_app. split; [done|]. split; [|done].
    intros x Hx Hx'. apply list_elem_of_fmap in Hx as (r & -> & Hr).
    apply (Hfresh r Hr). apply list_elem_of_fmap in Hx' as (r' & E & Hr').
    apply list_elem_of_fmap. exists r'. auto.
  - done.
  - intros r1 r2 H1 H2 Hid.
    destruct (Hsplit r1 H1) as [N1|O1], (Hsplit r2 H2) as [N2|O2].
    + by apply (same_id_same_entry new).
    + exfalso. apply (Hfresh r1 N1). apply list_elem_of_fmap.
      exists r2. auto.
    + exfalso. apply (Hfresh r2 N2). apply list_elem_of_fmap.
      exists r1. auto.
    + apply Hfun; auto.
Qed.

Lemma inv_step s e : Inv s -> Inv (step_i s e).
Proof.
  intros HI.
  destruct e as [| | | | | | | | | | | | | | | | | |resp| |];
    try (match goal with
         | |- identityInv _ (step _ _ _ _ _ ?e) =>
             destruct (step_store_frame s e) as (H1 & H2 & H3);
             [done|done|by apply (inv_frame s _ H1 H2 H3)]
         end).
  - destruct HI as (Hdrawn & _ & Hr & Hfun).
    unfold identityInv, stored, drawn in *. simpl.
    rewrite Forall_app in Hdrawn. destruct Hdrawn as [_ Hdr].
    repeat split; [done|constructor|done|].
    intros r1 r2 H1 H2. apply Hfun; apply elem_of_app; by right.
  - simpl. unfold handleAnalysis_resume.
    destruct (analyzeSentiment JSON_parse_results randomUUID toISOString
                resp (draws s) (now s)) as [[new|reason] d] eqn:Han.
    + apply analyze_fulfilled_inv in Han as (raws & _ & -> & ->).
      exact (inv_success s raws HI).
    + assert (d = draws s) as ->.
      { unfold analyzeSentiment in Han. repeat case_match; congruence. }
      by apply (inv_frame s).
Qed.

Lemma inv_reachable s : reachable_i s -> Inv s.
Proof. induction 1; [apply inv_initial|by apply inv_step]. Qed.

(** C8. Provided [crypto.randomUUID] never returns a value twice, in
    every state the component can reach neither the history nor the
    current results repeat an id, two stored results with the same id are
    the same result, and every successful analysis stores results whose
    ids differ from one another and from every id stored before, whatever
    the texts were. *)
Theorem ids_never_shared s :
  reachable_i s ->
  NoDup (id <$> history s)
  /\ NoDup (id <$> results s)
  /\ (forall r1 r2,
        r1 ∈ stored s -> r2 ∈ stored s -> id r1 = id r2 -> r1 = r2)
  /\ (forall resp raws,
        providerReturns JSON_parse_results resp raws ->
        let new := results (step_i s (AnalysisSettles resp)) in
        length new = length raws
        /\ NoDup (id <$> new)
        /\ (forall r, r ∈ new -> id r ∉ id <$> stored s)).
Proof.
  intros Hreach.
  destruct (inv_reachable s Hreach) as (_ & Hh & Hr & Hfun).
  split; [exact Hh|]. split; [exact Hr|]. split; [exact Hfun|].
  intros resp raws Hret. simpl. unfold handleAnalysis_resume.
  rewrite (analyze_returns _ _ _ _ _ _ _ Hret). simpl.
  split; [apply stamp_length|].
  exact (stamp_fresh s raws (inv_reachable s Hreach)).
Qed.

End Unique.

End IdentityFacts.

(** ** Bulk upload *)

Section UploadFacts.

Variable JSON_parse_results : string -> option (list RawResult).
Variable JSON_parse_suggestion : string -> option Suggestion.
Variable randomUUID : nat -> string.
Variable toISOString : nat -> string.

(** [l.split(',')[0]] is the text before the first comma. *)
Lemma firstField_untilComma l : firstField l = untilComma l.
Proof.
  unfold firstField. induction l as [|c r IH]; [done|]. simpl.
  destruct (Ascii.eqb c ","%char); [done|].
  destruct (JsString.split ","%char r) as [|h t] eqn:E; [|by rewrite IH].
  by destruct (JsStringFacts.split_nonempty ","%char r).
Qed.

Lemma uploadLines_extract name content :
  uploadLines name content
  = filter (fun l => 5 < String.length l)
      (extractLine name <$> JsString.split newline content).
Proof.
  unfold uploadLines, extractLine.
  destruct (JsString.endsWith name ".csv"); [|done].
  f_equal. apply list_fmap_ext. intros _ l _. by rewrite firstField_untilComma.
Qed.

Lemma survivor_not_blank name content l :
  l ∈ uploadLines name content -> JsString.blank l = false.
Proof.
  rewrite uploadLines_extract. intros Hin.
  apply list_elem_of_filter in Hin as [Hlen Hin].
  apply list_elem_of_fmap in Hin as (x & -> & _).
  unfold extractLine in *.
  destruct (JsString.endsWith name ".csv");
    apply JsStringFacts.blank_trim; lia.
Qed.

End UploadFacts.

(** ** Derived views *)

Lemma Number_of_nat_nonzero n :
  0 < n -> Qeq_bool (inject_Z (Z.of_nat n)) 0 = false.
Proof.
  intros Hn. destruct (Qeq_bool (inject_Z (Z.of_nat n)) 0) eqn:E; [|done].
  apply Qeq_bool_eq in E. unfold Qeq in E. simpl in E. lia.
Qed.

Lemma radialTotal_pos data : 0 < radialTotal data.
Proof. unfold radialTotal. destruct data; simpl; lia. Qed.

(** The radial score is always a finite number. *)
Lemma radialData_finite results history :
  exists v, bar_value <$> radialData results history = [Some v].
Proof.
  unfold radialData. simpl. unfold Number_div, Number_of_nat.
  rewrite Number_of_nat_nonzero by apply radialTotal_pos. simpl. eauto.
Qed.

Lemma posCount_app l1 l2 : posCount (l1 ++ l2) = posCount l1 + posCount l2.
Proof. unfold posCount. by rewrite List.filter_app, length_app. Qed.

(** C10. A result with no analyses is handled without an out-of-range
    read: its first sentiment is undefined, so it is not counted as
    Positive by the radial score, whose value stays a finite number, and
    when it is the entry the mood is taken from, the Neutral theme is
    chosen. *)
Theorem empty_analyses_are_safe r :
  analyses r = [] ->
  firstSentiment r = None
  /\ (forall pre post, posCount (pre ++ r :: post) = posCount (pre ++ post))
  /\ (forall results history,
        exists v, bar_value <$> radialData results history = [Some v])
  /\ (forall rest history, moodColors (r :: rest) history = theme_Neutral)
  /\ (forall rest, moodColors [] (r :: rest) = theme_Neutral).
Proof.
  intros He.
  assert (firstSentiment r = None) as Hfs.
  { unfold firstSentiment. by rewrite He. }
  split; [done|]. split.
  { intros pre post. rewrite !posCount_app. f_equal.
    unfold posCount. simpl. unfold isPositiveFirst at 1. by rewrite Hfs. }
  split; [exact radialData_finite|].
  split; intros; unfold moodColors, primarySentiment; simpl; by rewrite Hfs.
Qed.

(** The trend window: the 15 newest entries, oldest first. *)
Lemma trend_window (history : list SentimentResult) :
  JsString.slice_last 15 (reverse history) = reverse (take 15 history).
Proof.
  unfold JsString.slice_last. by rewrite length_reverse, reverse_take.
Qed.

Lemma trend_length (history : list SentimentResult) :
  length (timeSeriesData history) = min 15 (length history).
Proof.
  unfold timeSeriesData.
  rewrite length_imap, trend_window, length_reverse, length_take. lia.
Qed.

(** Each point is computed from the entry at its place in the window, and
    is named after its place alone. *)
Lemma trend_point (history : list SentimentResult) i :
  timeSeriesData history !! i
  = trendPoint i <$> reverse (take 15 history) !! i.
Proof. unfold timeSeriesData. by rewrite list_lookup_imap, trend_window. Qed.

Lemma trend_names (history : list SentimentResult) :
  point_name <$> timeSeriesData history
  = (fun i => "T-" +:+ pretty (15 - Z.of_nat i)%Z)
      <$> seq 0 (min 15 (length history)).
Proof.
  apply list_eq. intros i. rewrite !list_lookup_fmap, trend_point.
  destruct (reverse (take 15 history) !! i) as [h|] eqn:Hi; simpl.
  - apply lookup_lt_Some in Hi. rewrite length_reverse, length_take in Hi.
    by rewrite lookup_seq_lt.
  - apply lookup_ge_None in Hi. rewrite length_reverse, length_take in Hi.
    by rewrite lookup_seq_ge.
Qed.

(** With 15 entries or more the names are the distances from the newest
    point. *)
Lemma trend_names_full (history : list SentimentResult) :
  15 <= length history ->
  point_name <$> timeSeriesData history = offsetLabels 15.
Proof.
  intros Hlen. rewrite trend_names.
  replace (min 15 (length history)) with 15 by lia. reflexivity.
Qed.

(** ** Further facts: requests and the store *)

Section StoreFacts.

Variable JSON_parse_results : string -> option (list RawResult).
Variable JSON_parse_suggestion : string -> option Suggestion.
Variable randomUUID : nat -> string.
Variable toISOString : nat -> string.

Abbreviation step_s :=
  (step JSON_parse_results JSON_parse_suggestion randomUUID toISOString).
Abbreviation run_s :=
  (run JSON_parse_results JSON_parse_suggestion randomUUID toISOString).
Abbreviation reachable_s :=
  (reachable JSON_parse_results JSON_parse_suggestion randomUUID toISOString).
Abbreviation resume_s :=
  (handleAnalysis_resume JSON_parse_results randomUUID toISOString).
Abbreviation stamp_s := (stamp randomUUID toISOString).

Lemma run_snoc s es e : run_s s (es ++ [e]) = step_s (run_s s es) e.
Proof. unfold run. by rewrite fold_left_app. Qed.

Lemma run_step s e es : run_s s (e :: es) = run_s (step_s s e) es.
Proof. reflexivity. Qed.

(** The guard of [handleAnalysis]: an empty or all-blank batch changes
    nothing; any other batch goes out whole. *)
Lemma handleAnalysis_cases texts s :
  (handleAnalysis texts s = s
   /\ (texts = [] \/ Forall (fun t => JsString.blank t = true) texts))
  \/ (calls (handleAnalysis texts s)
      = calls s ++ [AnalyzeCall texts (selectedProvider s)]
      /\ isLoading (handleAnalysis texts s) = true
      /\ error (handleAnalysis texts s) = None
      /\ texts <> []).
Proof.
  unfold handleAnalysis.
  destruct (length texts =? 0) eqn:Hlen; simpl.
  - left. split; [done|]. left. apply Nat.eqb_eq in Hlen. by destruct texts.
  - destruct (forallb JsString.blank texts) eqn:Hall.
    + left. split; [done|]. right. apply Forall_forall. intros t Ht.
      rewrite forallb_forall in Hall. apply Hall. by apply list_elem_of_In.
    + right. repeat split; try done. intros ->. done.
Qed.

Lemma handleAnalysis_captured_cases mode texts s :
  (handleAnalysis_captured mode texts s = s
   /\ (texts = [] \/ Forall (fun t => JsString.blank t = true) texts))
  \/ (calls (handleAnalysis_captured mode texts s)
      = calls s ++ [AnalyzeCall texts mode]
      /\ isLoading (handleAnalysis_captured mode texts s) = true
      /\ error (handleAnalysis_captured mode texts s) = None
      /\ texts <> []).
Proof.
  unfold handleAnalysis_captured.
  destruct (length texts =? 0) eqn:Hlen; simpl.
  - left. split; [done|]. left. apply Nat.eqb_eq in Hlen. by destruct texts.
  - destruct (forallb JsString.blank texts) eqn:Hall.
    + left. split; [done|]. right. apply Forall_forall. intros t Ht.
      rewrite forallb_forall in Hall. apply Hall. by apply list_elem_of_In.
    + right. repeat split; try done. intros ->. done.
Qed.

Lemma autoAnalysis_calls s :
  calls (autoAnalysis s) = calls s
  \/ (calls (autoAnalysis s)
      = calls s ++ [AnalyzeCall [debouncedInput s] (selectedProvider s)]
      /\ JsString.blank (debouncedInput s) = false).
Proof.
  destruct (decide (autoTrigger s)) as [Hyes|Hno].
  - right. destruct (autoAnalysis_trigger s Hyes) as [Hc _]. split; [done|].
    destruct Hyes as [Hlen _].
    by apply (JsStringFacts.blank_false_of_long 20).
  - left. by rewrite autoAnalysis_idle.
Qed.

(** One event issues no request, or one well-formed request. *)
Lemma step_calls s e :
  calls (step_s s e) = calls s
  \/ exists c, calls (step_s s e) = calls s ++ [c] /\ wellFormedCall c.
Proof.
  assert (forall v (s0 : State),
             calls (changeInput v s0) = calls s0) as Hchange.
  { intros v s0. unfold changeInput. by destruct (String.eqb v (inputText s0)). }
  destruct e; simpl; try (by left).
  - unfold insertExample. destruct (examples !! k); [|by left].
    left. apply Hchange.
  - destruct (isLoading s || JsString.blank (inputText s)) eqn:Hdis;
      [by left|].
    apply orb_false_elim in Hdis as [_ Hb].
    unfold manualAnalyze. rewrite Hb.
    unfold handleAnalysis. simpl. rewrite Hb. simpl. right.
    eexists. split; [done|]. simpl. split; [lia|]. by constructor.
  - unfold onFileUpload. destruct file; by left.
  - unfold fileRead.
    destruct (takeRead file (pendingReads s)) as [[mode rest]|]; [|by left].
    unfold reader_onload.
    set (lines := uploadLines (file_name file) (file_content file)).
    destruct (0 <? length lines) eqn:Hn; [|by left].
    apply Nat.ltb_lt in Hn.
    assert (Forall (fun t => JsString.blank t = false)
              (JsString.slice_to 10 lines)) as Hnb.
    { apply Forall_take, Forall_forall. intros l Hl.
      by apply (survivor_not_blank (file_name file) (file_content file)). }
    destruct (handleAnalysis_captured_cases mode (JsString.slice_to 10 lines)
                (setPendingReads rest s))
      as [[-> _]|(Hc & _)]; [by left|].
    right. eexists. split; [exact Hc|]. split; [|done].
    unfold JsString.slice_to. rewrite length_take. lia.
  - unfold clickReframe. repeat case_match; try (by left).
    right. eexists. split; [done|]. done.
  - unfold handleAnalysis_resume. repeat case_match; by left.
  - repeat case_match; by left.
  - unfold elapse. simpl. repeat case_match; try (by left).
    unfold timerFires. simpl. case_match; [by left|].
    match goal with
    | |- context [autoAnalysis ?s0] =>
        destruct (autoAnalysis_calls s0) as [Hc|[Hc Hb]]
    end; [by left|].
    right. eexists. split; [exact Hc|]. simpl. split; [lia|]. by constructor.
Qed.

(** X1. No request ever issued to the analysis provider is empty, longer
    than ten texts, or carries a blank text. *)
Theorem requests_are_well_formed s :
  reachable_s s -> Forall wellFormedCall (calls s).
Proof.
  induction 1 as [|s e _ IH]; [constructor|].
  destruct (step_calls s e) as [->|(c & -> & Hc)]; [done|].
  apply Forall_app. split; [done|]. by constructor.
Qed.

(** X2. The Analyze button does nothing while a request is loading or the
    text is blank, so the message [manualAnalyze] keeps for a blank text is
    never produced by it; otherwise it issues exactly one request, for the
    text as typed, records that text in the tracker and clears any error. *)
Theorem analyze_button s :
  let s' := step_s s ClickAnalyze in
  (isLoading s = true \/ JsString.blank (inputText s) = true -> s' = s)
  /\ (isLoading s = false -> JsString.blank (inputText s) = false ->
      issued s s' = [AnalyzeCall [inputText s] (selectedProvider s)]
      /\ lastAnalyzedText s' = inputText s
      /\ isLoading s' = true
      /\ error s' = None).
Proof.
  simpl. split.
  - intros [->|Hb]; [done|]. rewrite Hb. by rewrite orb_true_r.
  - intros -> Hb. rewrite Hb. simpl.
    unfold manualAnalyze, handleAnalysis. rewrite Hb. simpl. rewrite Hb. simpl.
    split; [|done]. by apply issued_app.
Qed.

(** X3. Two analyses in flight: when both answers arrive, the current
    results are those of the answer that arrived last, the history holds
    the later batch in front of the earlier one, and the ids of the later
    batch continue where the earlier batch stopped. *)
Theorem last_answer_wins s resp1 resp2 raws1 raws2 :
  providerReturns JSON_parse_results resp1 raws1 ->
  providerReturns JSON_parse_results resp2 raws2 ->
  let s1 := resume_s resp1 s in
  let s2 := resume_s resp2 s1 in
  results s2 = stamp_s (draws s + length raws1) (now s) raws2
  /\ history s2 = results s2 ++ results s1 ++ history s
  /\ draws s2 = draws s + length raws1 + length raws2
  /\ isLoading s1 = false.
Proof.
  intros H1 H2. simpl. unfold handleAnalysis_resume.
  rewrite (analyze_returns _ _ _ _ _ _ _ H1). simpl.
  rewrite (analyze_returns _ _ _ _ _ _ _ H2). by simpl.
Qed.

Lemma step_history_suffix s e :
  e <> ClickClearArchives -> history s `suffix_of` history (step_s s e).
Proof.
  intros Hc.
  destruct e; try done;
    try (match goal with
         | |- context [step _ _ _ _ s ?e] =>
             destruct (step_store_frame JSON_parse_results
                         JSON_parse_suggestion randomUUID toISOString s e)
               as (-> & _); done
         end).
  simpl. unfold handleAnalysis_resume.
  repeat case_match; simpl; try done. by apply suffix_app_r.
Qed.

Lemma step_results_prefix s e :
  e <> ClickClearArchives ->
  results s `prefix_of` history s ->
  results (step_s s e) `prefix_of` history (step_s s e).
Proof.
  intros Hc Hp.
  destruct e; try done;
    try (match goal with
         | |- context [step _ _ _ _ s ?e] =>
             destruct (step_store_frame JSON_parse_results
                         JSON_parse_suggestion randomUUID toISOString s e)
               as (-> & -> & _); done
         end).
  simpl. unfold handleAnalysis_resume.
  repeat case_match; simpl; try done. by apply prefix_app_r.
Qed.

(** X4. As long as the archives are not cleared the history only grows at
    its front: what it held before a run is still there, in place, at the
    end of what it holds after. *)
Theorem history_grows_at_front es : forall s,
  neverCleared es -> history s `suffix_of` history (run_s s es).
Proof.
  induction es as [|e es IH]; intros s Hnc; [done|].
  apply Forall_cons in Hnc as [He Hes]. rewrite run_step.
  etrans; [by apply step_history_suffix|by apply IH].
Qed.

(** X5. As long as the archives are not cleared the current results are
    the newest entries of the history: they are its first entries, in
    order. *)
Theorem results_head_the_history es :
  neverCleared es ->
  results (run_s initial es) `prefix_of` history (run_s initial es).
Proof.
  intros Hnc.
  assert (forall s, results s `prefix_of` history s ->
                    results (run_s s es) `prefix_of` history (run_s s es))
    as Hgen.
  { induction es as [|e es IH]; intros s Hp; [done|].
    apply Forall_cons in Hnc as [He Hes]. rewrite run_step.
    apply IH; [done|]. by apply step_results_prefix. }
  by apply Hgen.
Qed.

End StoreFacts.

(** ** Further facts: the tone session and the debounced input *)

Section SessionFacts.

Variable JSON_parse_results : string -> option (list RawResult).
Variable JSON_parse_suggestion : string -> option Suggestion.
Variable randomUUID : nat -> string.
Variable toISOString : nat -> string.

Abbreviation step_t :=
  (step JSON_parse_results JSON_parse_suggestion randomUUID toISOString).
Abbreviation run_t :=
  (run JSON_parse_results JSON_parse_suggestion randomUUID toISOString).
Abbreviation reachable_t :=
  (reachable JSON_parse_results JSON_parse_suggestion randomUUID toISOString).
Abbreviation improve := (getImprovementSuggestions JSON_parse_suggestion).
Abbreviation improve_resume_t :=
  (handleImproveRequest_resume JSON_parse_suggestion).

(** X6. [getImprovementSuggestions] fulfils with what [JSON.parse] makes
    of the trimmed text of the answer, and rejects exactly when the request
    is rejected or the text is missing, blank or not parsable. *)
Theorem improvement_answer_usable resp :
  (forall data,
      improve resp = Fulfilled data <->
      exists t, resp = GenText (Some t) /\ JsString.trim t <> ""
                /\ JSON_parse_suggestion (JsString.trim t) = Some data)
  /\ ((exists reason, improve resp = Rejected reason) <->
      Unusable JSON_parse_suggestion resp).
Proof.
  split.
  - intros data. unfold getImprovementSuggestions. split.
    + destruct resp as [|r]; [done|].
      destruct (jsonStr r) as [js|] eqn:Hjs; [|done].
      apply jsonStr_Some in Hjs as (t & -> & -> & Hne).
      destruct (JSON_parse_suggestion (JsString.trim t)) eqn:Hp; [|done].
      intros [= <-]. by exists t.
    + intros (t & -> & Hne & Hp).
      assert (jsonStr (Some t) = Some (JsString.trim t)) as ->.
      { apply jsonStr_Some. by exists t. }
      by rewrite Hp.
  - unfold getImprovementSuggestions. split.
    + intros [reason H]. destruct resp as [|r]; [constructor|].
      destruct (jsonStr r) as [js|] eqn:Hjs.
      * apply jsonStr_Some in Hjs as (t & -> & -> & _).
        destruct (JSON_parse_suggestion (JsString.trim t)) eqn:Hp; [done|].
        by apply unusable_unparsable.
      * apply jsonStr_None in Hjs as [->|(t & -> & Ht)];
          [constructor|by apply unusable_blank].
    + intros [| |t Ht|t Hp]; eauto.
      * assert (jsonStr (Some t) = None) as ->; [|eauto].
        apply jsonStr_None. right. by exists t.
      * destruct (jsonStr (Some t)) as [js|] eqn:Hjs; [|eauto].
        apply jsonStr_Some in Hjs as (t' & [= <-] & -> & _).
        rewrite Hp. eauto.
Qed.

(** X7. A tone session from request to answer. Opening it shows the
    spinner, issues one request for the text and leaves an error message
    that was showing in place. A usable answer is shown and still leaves
    that message; an unusable one ends the spinner with nothing to show
    and replaces the message. Neither touches the store. *)
Theorem improvement_session_lifecycle s rid rtext resp :
  let s1 := handleImproveRequest rid rtext s in
  let s2 := improve_resume_t resp s1 in
  sessionView s1 = Requesting
  /\ issued s s1 = [ImproveCall rtext]
  /\ error s1 = error s
  /\ match improve resp with
     | Fulfilled data => sessionView s2 = Ready data /\ error s2 = error s
     | Rejected _ =>
         sessionView s2 = Failed
         /\ error s2 = Some "Failed to generate suggestions."
     end
  /\ improvingText s2 = Some (rid, rtext)
  /\ results s2 = results s /\ history s2 = history s.
Proof.
  simpl. unfold handleImproveRequest_resume, sessionView.
  split; [done|]. split; [by apply issued_app|]. split; [done|].
  by destruct (improve resp).
Qed.

(** X8. An answer is applied to whatever session is open when it arrives.
    When a session is dismissed with its request in flight and another is
    opened, the next usable answer to arrive ends the spinner of the open
    session and is shown there, under the text of that session. *)
Theorem answer_lands_in_open_session s rid1 rtext1 rid2 rtext2 resp data :
  improve resp = Fulfilled data ->
  let s1 := handleImproveRequest rid1 rtext1 s in
  let s2 := step_t s1 ClickDismiss in
  let s3 := handleImproveRequest rid2 rtext2 s2 in
  let s4 := step_t s3 (ImprovementSettles resp) in
  sessionView s3 = Requesting
  /\ sessionView s4 = Ready data
  /\ improvingText s4 = Some (rid2, rtext2).
Proof.
  intros Hok. simpl. unfold handleImproveRequest_resume, sessionView.
  by rewrite Hok.
Qed.

Lemma debounceInv_changeInput v s :
  debounceInv s -> debounceInv (changeInput v s).
Proof.
  unfold changeInput. destruct (String.eqb v (inputText s)); [done|].
  intros _. unfold debounceInv. simpl. split; [done|lia].
Qed.

Lemma debounceInv_elapse d s : debounceInv s -> debounceInv (elapse d s).
Proof.
  unfold elapse, debounceInv. simpl.
  destruct (timer s) as [[due v]|] eqn:Ht; simpl.
  - intros [-> Hdue]. destruct (due <=? now s + d).
    + by destruct (timerFires_settles (setNow (now s + d) s) (inputText s))
        as (-> & -> & -> & _).
    + simpl. rewrite Ht. split; [done|lia].
  - by rewrite Ht.
Qed.

Lemma debounceInv_frame s s' :
  timer s' = timer s -> inputText s' = inputText s ->
  debouncedInput s' = debouncedInput s -> now s' = now s ->
  debounceInv s -> debounceInv s'.
Proof. unfold debounceInv. by intros -> -> -> ->. Qed.

Lemma debounceInv_step s e : debounceInv s -> debounceInv (step_t s e).
Proof.
  intros HI.
  destruct e; simpl;
    try (by apply debounceInv_changeInput);
    try (by apply debounceInv_elapse);
    try (apply (debounceInv_frame s); [..|done];
         unfold_handlers; simpl; by repeat case_match).
  unfold insertExample. destruct (examples !! k); [|done].
  by apply debounceInv_changeInput.
Qed.

Lemma debounceInv_reachable s : reachable_t s -> debounceInv s.
Proof.
  induction 1 as [|s e _ IH]; [|by apply debounceInv_step].
  unfold debounceInv. simpl. split; [done|lia].
Qed.

(** X9. In every reachable state, once a full delay passes without a
    change of the text, the settled value is the text; no timer is left
    pending, and further waiting alone issues no request. *)
Theorem settled_value_catches_up s d :
  reachable JSON_parse_results JSON_parse_suggestion randomUUID toISOString
    s ->
  1500 <= d ->
  let s' := step JSON_parse_results JSON_parse_suggestion randomUUID
              toISOString s (Elapse d) in
  debouncedInput s' = inputText s
  /\ inputText s' = inputText s
  /\ timer s' = None
  /\ (forall ds,
        calls (run JSON_parse_results JSON_parse_suggestion randomUUID
                 toISOString s' (Elapse <$> ds))
        = calls s').
Proof.
  intros Hreach Hd. apply debounceInv_reachable in Hreach as HI.
  assert (let s' := step_t s (Elapse d) in
          debouncedInput s' = inputText s /\ inputText s' = inputText s
          /\ timer s' = None) as (H1 & H2 & H3).
  { simpl. unfold elapse, debounceInv in *. simpl.
    destruct (timer s) as [[due v]|] eqn:Ht; simpl.
    - destruct HI as [-> Hdue].
      assert ((due <=? now s + d) = true) as -> by (apply Nat.leb_le; lia).
      by destruct (timerFires_settles (setNow (now s + d) s) (inputText s))
        as (-> & -> & -> & _).
    - by rewrite Ht. }
  simpl in *. repeat split; try done.
  intros ds.
  by apply (quiet_without_timer JSON_parse_results JSON_parse_suggestion
              randomUUID toISOString).
Qed.

End SessionFacts.

(** ** Further facts: the derived views *)

Lemma Number_of_nat_succ n :
  (inject_Z (Z.of_nat (S n)) == inject_Z (Z.of_nat n) + 1)%Q.
Proof. rewrite Nat2Z.inj_succ. unfold Z.succ. by rewrite inject_Z_plus. Qed.

Lemma Number_of_nat_pos n : 0 < n -> (0 < inject_Z (Z.of_nat n))%Q.
Proof. intros Hn. change 0%Q with (inject_Z 0). rewrite <- Zlt_Qlt. lia. Qed.

(** A ratio between 0 and 1, as a rounded percentage, lies between 0 and
    100. *)
Lemma percent_bounds (q : Q) (n : nat) :
  0 < n -> (0 <= q)%Q -> (q <= inject_Z (Z.of_nat n))%Q ->
  exists v,
    Math_round (Number_mul (Number_div (Some q) (Number_of_nat n))
                           (Number_of_nat 100)) = Some v
    /\ (0 <= v <= 100)%Z.
Proof.
  intros Hn H0 H1. unfold Number_div, Number_of_nat.
  rewrite Number_of_nat_nonzero by done.
  exists (Qfloor (q / inject_Z (Z.of_nat n) * 100 + (1 # 2))).
  split; [reflexivity|].
  pose proof (Number_of_nat_pos n Hn) as Hpos.
  set (m := inject_Z (Z.of_nat n)) in *.
  assert (0 <= q / m)%Q as Hlo.
  { apply Qle_shift_div_l; [done|]. lra. }
  assert (q / m <= 1)%Q as Hhi.
  { apply Qle_shift_div_r; [done|]. lra. }
  set (x := (q / m)%Q) in *. clearbody x.
  split.
  - change 0%Z with (Qfloor (1 # 2)). apply Qfloor_resp_le. lra.
  - apply Z.le_trans with (Qfloor (201 # 2)); [|done].
    apply Qfloor_resp_le. lra.
Qed.

Lemma posCount_le data : posCount data <= length data.
Proof. unfold posCount. apply List.filter_length_le. Qed.

Lemma posCount_all data :
  Forall (fun r => isPositiveFirst r = true) data -> posCount data = length data.
Proof.
  unfold posCount. induction 1 as [|r l Hr _ IH]; [done|].
  simpl. rewrite Hr. simpl. by rewrite IH.
Qed.

(** X10. The satisfaction score is always a whole number between 0 and
    100: it is 0 when there is nothing to score or no entry opens with a
    Positive analysis, and 100 when every entry does. *)
Theorem radial_score_in_range results history :
  let data := analyticsSource results history in
  exists v,
    bar_value <$> radialData results history = [Some v]
    /\ (0 <= v <= 100)%Z
    /\ (posCount data = 0 -> v = 0%Z)
    /\ (data <> [] -> Forall (fun r => isPositiveFirst r = true) data ->
        v = 100%Z).
Proof.
  intros data. unfold radialData. fold data.
  cbn [fmap list_fmap bar_value].
  pose proof (radialTotal_pos data) as Ht.
  pose proof (posCount_le data) as Hp.
  pose proof (Number_of_nat_pos (radialTotal data) Ht) as Hpos.
  destruct (percent_bounds (inject_Z (Z.of_nat (posCount data)))
              (radialTotal data) Ht) as (v & Hv & Hrange).
  { change 0%Q with (inject_Z 0). rewrite <- Zle_Qle. lia. }
  { rewrite <- Zle_Qle. unfold radialTotal. destruct data; simpl in *; lia. }
  exists v. fold (Number_of_nat (posCount data)) in Hv. rewrite Hv.
  split; [done|]. split; [done|].
  unfold Number_div, Number_of_nat in Hv.
  rewrite Number_of_nat_nonzero in Hv by done.
  apply (inj Some) in Hv. subst v.
  split.
  - intros ->. apply Z.eq_trans with (Qfloor (1 # 2)); [|done].
    apply Qfloor_comp. change (inject_Z (Z.of_nat 0)) with 0%Q.
    field. lra.
  - intros Hne Hall. rewrite (posCount_all data Hall).
    assert (radialTotal data = length data) as E.
    { unfold radialTotal. by destruct data. }
    rewrite E in *.
    apply Z.eq_trans with (Qfloor (201 # 2)); [|done].
    apply Qfloor_comp. change (inject_Z (Z.of_nat 100)) with 100%Q.
    field. lra.
Qed.

Lemma sumConfidence_bounds l : forall acc,
  Forall (fun a => 0 <= confidence a <= 1)%Q l ->
  (acc <= fold_left (fun acc curr => acc + confidence curr) l acc
   /\ fold_left (fun acc curr => acc + confidence curr) l acc
      <= acc + inject_Z (Z.of_nat (length l)))%Q.
Proof.
  induction l as [|a l IH]; intros acc Hall.
  - simpl. change (inject_Z (Z.of_nat 0)) with 0%Q. lra.
  - apply Forall_cons in Hall as [[Ha0 Ha1] Hl].
    destruct (IH (acc + confidence a)%Q Hl) as [H1 H2].
    change (length (a :: l)) with (S (length l)).
    rewrite Number_of_nat_succ. simpl. lra.
Qed.

Lemma countSentiment_three l :
  countSentiment "Positive" l + countSentiment "Negative" l
  + countSentiment "Neutral" l <= length l
  /\ (Forall (fun a => sentiment a ∈ ["Positive"; "Negative"; "Neutral"]) l ->
      countSentiment "Positive" l + countSentiment "Negative" l
      + countSentiment "Neutral" l = length l).
Proof.
  unfold countSentiment. induction l as [|a l [IH1 IH2]]; [done|].
  simpl.
  destruct (String.eqb (sentiment a) "Positive") eqn:E1,
           (String.eqb (sentiment a) "Negative") eqn:E2,
           (String.eqb (sentiment a) "Neutral") eqn:E3;
    try apply String.eqb_eq in E1; try apply String.eqb_eq in E2;
    try apply String.eqb_eq in E3; try congruence;
    simpl; (split; [lia|]); intros H; apply Forall_cons in H as [Ha H];
    try (specialize (IH2 H); lia).
  apply String.eqb_neq in E1, E2, E3.
  repeat (apply elem_of_cons in Ha as [Ha|Ha]; [congruence|]).
  by apply elem_of_nil in Ha.
Qed.

(** X11. Every point of the trend comes from the entry at its place among
    the 15 newest, oldest first. Its confidence is not a number when the
    entry has no analyses, and a whole percentage between 0 and 100 when
    it has some and their confidences lie between 0 and 1. Its three
    counts never add up to more than the number of analyses of the entry,
    and add up to exactly that when every sentiment is one of the three. *)
Theorem trend_point_values (history : list SentimentResult) i p :
  timeSeriesData history !! i = Some p ->
  exists h,
    reverse (take 15 history) !! i = Some h
    /\ (analyses h = [] -> point_confidence p = None)
    /\ (analyses h <> [] ->
        Forall (fun a => 0 <= confidence a <= 1)%Q (analyses h) ->
        exists v, point_confidence p = Some v /\ (0 <= v <= 100)%Z)
    /\ point_pos p + point_neg p + point_neu p <= length (analyses h)
    /\ (Forall (fun a => sentiment a ∈ ["Positive"; "Negative"; "Neutral"])
               (analyses h) ->
        point_pos p + point_neg p + point_neu p = length (analyses h)).
Proof.
  rewrite trend_point.
  destruct (reverse (take 15 history) !! i) as [h|]; [|done].
  intros [= <-]. exists h. split; [done|]. simpl.
  split; [by intros ->|].
  split; [|apply countSentiment_three].
  intros Hne Hconf.
  destruct (sumConfidence_bounds (analyses h) 0%Q Hconf) as [H0 H1].
  apply percent_bounds; [destruct (analyses h); simpl; [done|lia]|done|].
  unfold sumConfidence. lra.
Qed.

Lemma increment_other k k' (totals : gmap string (option nat)) :
  k' <> k -> increment k' totals !! k = totals !! k.
Proof. intros Hne. unfold increment. by rewrite lookup_insert_ne. Qed.

Lemma increment_same k (totals : gmap string (option nat)) n :
  totals !! k = Some (Some n) -> increment k totals !! k = Some (Some (S n)).
Proof. intros H. unfold increment. by rewrite lookup_insert_eq, H. Qed.

Lemma tally_analyses k l : forall (totals : gmap string (option nat)) n,
  totals !! k = Some (Some n) ->
  fold_left (fun totals a => increment (sentiment a) totals) l totals !! k
  = Some (Some (n + countSentiment k l)).
Proof.
  unfold countSentiment.
  induction l as [|a l IH]; intros totals n Hk; simpl.
  - by rewrite Nat.add_0_r.
  - destruct (String.eqb_spec (sentiment a) k) as [->|Hne]; simpl.
    + rewrite (IH _ (S n)); [|by apply increment_same]. f_equal. f_equal. lia.
    + rewrite (IH _ n); [done|]. by rewrite increment_other.
Qed.

Lemma countSentiment_app k l1 l2 :
  countSentiment k (l1 ++ l2) = countSentiment k l1 + countSentiment k l2.
Proof. unfold countSentiment. by rewrite List.filter_app, length_app. Qed.

Lemma tally_results k data : forall (totals : gmap string (option nat)) n,
  totals !! k = Some (Some n) ->
  fold_left
    (fun totals r =>
       fold_left (fun totals a => increment (sentiment a) totals)
                 (analyses r) totals)
    data totals !! k
  = Some (Some (n + countSentiment k (allAnalyses data))).
Proof.
  unfold allAnalyses.
  induction data as [|r data IH]; intros totals n Hk; simpl.
  - by rewrite Nat.add_0_r.
  - rewrite (IH _ (n + countSentiment k (analyses r)));
      [|by apply tally_analyses].
    rewrite countSentiment_app. f_equal. f_equal. symmetry. apply Nat.add_assoc.
Qed.

(** X12. The three values of the distribution are the numbers of analyses,
    over all entries of the source set, whose sentiment is Positive,
    Neutral and Negative, in that order; analyses with another sentiment
    are counted nowhere. *)
Theorem stats_counts_every_analysis results history :
  let all := allAnalyses (analyticsSource results history) in
  (fun row => (stat_name row, stat_value row)) <$> stats results history
  = [ ("Positive", Some (countSentiment "Positive" all));
      ("Neutral", Some (countSentiment "Neutral" all));
      ("Negative", Some (countSentiment "Negative" all)) ]
  /\ countSentiment "Positive" all + countSentiment "Neutral" all
     + countSentiment "Negative" all <= length all.
Proof.
  simpl. split.
  - unfold stats, tally. simpl.
    rewrite !(tally_results _ _ initialTotals 0); try done.
  - pose proof (proj1 (countSentiment_three
                         (allAnalyses (analyticsSource results history)))).
    lia.
Qed.

Lemma providerCount_le p v (history : list SentimentResult) :
  providerCount p v history <= length history.
Proof. unfold providerCount. apply List.filter_length_le. Qed.

Lemma providerCount_absent p v (history : list SentimentResult) :
  Forall (fun a => provider a <> p) (allAnalyses history) ->
  providerCount p v history = 0.
Proof.
  unfold providerCount, allAnalyses.
  induction history as [|h history IH]; [done|]. simpl.
  intros Hall. apply Forall_app in Hall as [Hh Hrest].
  assert (existsb (fun a => String.eqb (provider a) p
                            && String.eqb (sentiment a) v) (analyses h)
          = false) as ->.
  { induction Hh as [|a l Ha _ IHl]; [done|]. simpl.
    apply String.eqb_neq in Ha as ->. by simpl. }
  by apply IH.
Qed.

(** X13. The radar has one row per sentiment, in the order Positive,
    Neutral, Negative. In a row, neither count exceeds the number of
    history entries, the ceiling is at least 10 and at least both counts,
    and it is exactly 10 while both counts stay at or below 10. When no
    analysis in the history is labelled Standard or Expert, both counts
    are 0 in every row. *)
Theorem radar_rows_are_bounded (history : list SentimentResult) :
  radar_subject <$> radarData history = ["Positive"; "Neutral"; "Negative"]
  /\ Forall
       (fun row =>
          radar_Standard row <= length history
          /\ radar_Expert row <= length history
          /\ 10 <= radar_fullMark row
          /\ radar_Standard row <= radar_fullMark row
          /\ radar_Expert row <= radar_fullMark row
          /\ (radar_Standard row <= 10 -> radar_Expert row <= 10 ->
              radar_fullMark row = 10))
       (radarData history)
  /\ (Forall (fun a => provider a <> "Standard" /\ provider a <> "Expert")
             (allAnalyses history) ->
      Forall (fun row => radar_Standard row = 0 /\ radar_Expert row = 0)
             (radarData history)).
Proof.
  split; [done|]. split.
  - unfold radarData. simpl.
    repeat (constructor; [simpl;
      pose proof (providerCount_le "Standard" "Positive" history);
      pose proof (providerCount_le "Expert" "Positive" history);
      pose proof (providerCount_le "Standard" "Neutral" history);
      pose proof (providerCount_le "Expert" "Neutral" history);
      pose proof (providerCount_le "Standard" "Negative" history);
      pose proof (providerCount_le "Expert" "Negative" history); lia|]).
    constructor.
  - intros Hall.
    assert (Forall (fun a => provider a <> "Standard") (allAnalyses history))
      as Hs by (eapply Forall_impl; [exact Hall|]; by intros a [? ?]).
    assert (Forall (fun a => provider a <> "Expert") (allAnalyses history))
      as He by (eapply Forall_impl; [exact Hall|]; by intros a [? ?]).
    unfold radarData. simpl.
    repeat (constructor; [simpl; split; by apply providerCount_absent|]).
    constructor.
Qed.

(** ** Further facts: the keyword map *)

Lemma assoc_countKeyword k kw c counts :
  assoc k (countKeyword kw c counts)
  = if String.eqb kw k
    then Some match assoc kw counts with
              | Some v => {| kw_count := S (kw_count v);
                             kw_conf := (kw_conf v + c)%Q |}
              | None => {| kw_count := 1; kw_conf := (0 + c)%Q |}
              end
    else assoc k counts.
Proof.
  induction counts as [|[k' v] rest IH]; simpl.
  - done.
  - destruct (String.eqb_spec k' kw) as [->|Hne]; simpl.
    + by destruct (String.eqb kw k).
    + rewrite IH. destruct (String.eqb_spec k' k) as [->|Hne'].
      * assert (String.eqb kw k = false) as ->
          by (apply String.eqb_neq; congruence).
        done.
      * done.
Qed.

Lemma assoc_None k (counts : list (string * KeywordTotals)) :
  assoc k counts = None <-> k ∉ counts.*1.
Proof.
  induction counts as [|[k' v] rest IH]; simpl.
  - split; [|done]. intros _ H. by apply elem_of_nil in H.
  - rewrite not_elem_of_cons.
    destruct (String.eqb_spec k' k) as [->|Hne].
    + split; [done|]. by intros [? _].
    + rewrite IH. split; [by split|by intros [_ ?]].
Qed.

Lemma assoc_elem k v (counts : list (string * KeywordTotals)) :
  NoDup counts.*1 -> (k, v) ∈ counts <-> assoc k counts = Some v.
Proof.
  induction counts as [|[k' v'] rest IH]; simpl; intros Hnd.
  - split; [|done]. intros H. by apply elem_of_nil in H.
  - apply NoDup_cons in Hnd as [Hk' Hnd]. rewrite elem_of_cons.
    destruct (String.eqb_spec k' k) as [->|Hne].
    + split.
      * intros [[= ->]|Hin]; [done|].
        destruct Hk'. apply list_elem_of_fmap. by exists (k, v).
      * intros [= ->]. by left.
    + rewrite <- (IH Hnd). split; [|by right].
      intros [[= ? ?]|?]; [congruence|done].
Qed.

Lemma countKeyword_keys_old kw c (counts : list (string * KeywordTotals)) :
  kw ∈ counts.*1 -> (countKeyword kw c counts).*1 = counts.*1.
Proof.
  induction counts as [|[k' v] rest IH]; intros Hin.
  - by apply elem_of_nil in Hin.
  - cbn [countKeyword]. destruct (String.eqb_spec k' kw) as [->|Hne]; [done|].
    rewrite !fmap_cons in *. rewrite IH; [done|].
    apply elem_of_cons in Hin as [?|?]; [simpl in *; congruence|done].
Qed.

Lemma countKeyword_keys_new kw c (counts : list (string * KeywordTotals)) :
  kw ∉ counts.*1 -> (countKeyword kw c counts).*1 = counts.*1 ++ [kw].
Proof.
  induction counts as [|[k' v] rest IH]; intros Hout; [done|].
  rewrite fmap_cons in Hout. apply not_elem_of_cons in Hout as [Hne Hout].
  cbn [countKeyword]. destruct (String.eqb_spec k' kw) as [->|_]; [done|].
  rewrite !fmap_cons. by rewrite IH.
Qed.

Lemma countKeyword_NoDup kw c (counts : list (string * KeywordTotals)) :
  NoDup counts.*1 -> NoDup (countKeyword kw c counts).*1.
Proof.
  intros Hnd. destruct (decide (kw ∈ counts.*1)) as [Hin|Hout].
  - by rewrite countKeyword_keys_old.
  - rewrite countKeyword_keys_new by done.
    apply NoDup_app. split; [done|]. split; [|apply NoDup_singleton].
    intros x Hx Hx'. apply list_elem_of_singleton in Hx' as ->. done.
Qed.

(** The three loops visit the occurrences in order. *)
Lemma keywordCounts_flat (history : list SentimentResult) :
  keywordCounts history
  = fold_left (fun counts o => noteKeyword o.2 counts o.1)
              (occurrencesWithConf history) [].
Proof.
  unfold keywordCounts, occurrencesWithConf, allAnalyses.
  generalize (@nil (string * KeywordTotals)) as counts.
  induction history as [|r history IH]; intros counts; [done|].
  simpl. rewrite fmap_app, concat_app, fold_left_app, IH. f_equal.
  clear IH. revert counts.
  induction (analyses r) as [|a l IHl]; intros counts; [done|].
  simpl. rewrite fold_left_app, IHl. f_equal.
  clear IHl. revert counts.
  induction (keywords a) as [|kw kws IHk]; intros counts; [done|].
  simpl. by rewrite IHk.
Qed.

Lemma occurrences_names (history : list SentimentResult) :
  (occurrencesWithConf history).*1 = keywordOccurrences history.
Proof.
  unfold occurrencesWithConf, keywordOccurrences.
  induction (allAnalyses history) as [|a l IH]; [done|].
  rewrite !fmap_cons. cbn [concat]. rewrite fmap_app, IH. f_equal.
  rewrite <- list_fmap_compose. apply list_fmap_id.
Qed.

(** What the loops keep: distinct names, none inherited, each with the
    number of its occurrences. *)
Lemma noteKeyword_fold occs : forall counts,
  NoDup counts.*1 ->
  Forall (fun e => inherited e.1 = false /\ 0 < kw_count e.2) counts ->
  let counts' := fold_left (fun counts o => noteKeyword o.2 counts o.1)
                           occs counts in
  NoDup counts'.*1
  /\ Forall (fun e => inherited e.1 = false /\ 0 < kw_count e.2) counts'
  /\ (forall k, countOf k counts'
                = countOf k counts
                  + if inherited k then 0
                    else length (List.filter (String.eqb k) occs.*1)).
Proof.
  induction occs as [|[kw c] occs IH]; intros counts Hnd Hall; cbv zeta.
  - repeat split; try done. intros k. simpl. destruct (inherited k); lia.
  - rewrite fmap_cons. cbn [fold_left List.filter fst snd].
    set (n := fun k => length (List.filter (String.eqb k) occs.*1)) in *.
    assert (forall k, length (if String.eqb k kw
                              then kw :: List.filter (String.eqb k) occs.*1
                              else List.filter (String.eqb k) occs.*1)
                      = (if String.eqb k kw then 1 else 0) + n k) as Hlen.
    { intros k. by destruct (String.eqb k kw). }
    unfold noteKeyword at 2 4 6.
    destruct (inherited kw) eqn:Hkw.
    + destruct (IH counts Hnd Hall) as (H1 & H2 & H3).
      repeat split; try done. intros k. rewrite H3, Hlen. fold (n k).
      destruct (String.eqb_spec k kw) as [->|Hne]; [by rewrite Hkw|done].
    + assert (Forall (fun e => inherited e.1 = false /\ 0 < kw_count e.2)
                (countKeyword kw c counts)) as Hall'.
      { clear IH Hnd.
        induction Hall as [|[k' v] rest [Hk Hv] Hrest IHr];
          cbn [countKeyword].
        - constructor; [simpl; split; [done|lia]|constructor].
        - destruct (String.eqb k' kw).
          + constructor; [simpl in *; split; [done|lia]|done].
          + constructor; [by split|done]. }
      destruct (IH (countKeyword kw c counts)
                  (countKeyword_NoDup kw c counts Hnd) Hall')
        as (H1 & H2 & H3).
      repeat split; try done. intros k. rewrite H3, Hlen. fold (n k).
      unfold countOf. rewrite assoc_countKeyword.
      destruct (String.eqb_spec kw k) as [->|Hne].
      * rewrite Hkw, String.eqb_refl.
        destruct (assoc k counts); cbn [from_option kw_count]; lia.
      * assert (String.eqb k kw = false) as ->
          by (apply String.eqb_neq; congruence).
        done.
Qed.

Lemma keywordCounts_spec (history : list SentimentResult) :
  NoDup (keywordCounts history).*1
  /\ (forall k v,
        (k, v) ∈ keywordCounts history ->
        inherited k = false
        /\ kw_count v = occurrenceCount k history
        /\ 0 < kw_count v)
  /\ (forall k,
        inherited k = false -> 0 < occurrenceCount k history ->
        k ∈ (keywordCounts history).*1).
Proof.
  rewrite keywordCounts_flat.
  destruct (noteKeyword_fold (occurrencesWithConf history) [])
    as (Hnd & Hall & Hcount); [constructor|constructor|].
  rewrite occurrences_names in Hcount.
  split; [done|]. split.
  - intros k v Hin. rewrite Forall_forall in Hall.
    destruct (Hall _ Hin) as [Hk Hv]. simpl in *.
    split; [done|]. split; [|done].
    apply assoc_elem in Hin; [|done].
    specialize (Hcount k). unfold countOf in Hcount.
    rewrite Hin, Hk in Hcount. simpl in Hcount. done.
  - intros k Hk Hocc. apply dec_stable. intros Hout.
    apply assoc_None in Hout. specialize (Hcount k).
    unfold countOf in Hcount. rewrite Hout, Hk in Hcount. simpl in Hcount.
    unfold occurrenceCount in Hocc. lia.
Qed.

Lemma insertByIndex_perm {A} (i : N) (e : A) l :
  insertByIndex i e l ≡ₚ (i, e) :: l.
Proof.
  induction l as [|[j f] rest IH]; simpl; [done|].
  destruct (i <=? j)%N; [done|]. rewrite IH. apply Permutation_swap.
Qed.

(** [Object.entries] lists every own property once. *)
Lemma Object_entries_perm {A} (props : list (string * A)) :
  Object_entries props ≡ₚ props.
Proof.
  unfold Object_entries.
  induction props as [|e props IH]; [done|]. simpl.
  destruct (arrayIndex e.1) as [i|].
  - rewrite insertByIndex_perm. simpl. by rewrite IH.
  - rewrite <- Permutation_middle. by rewrite IH.
Qed.

Lemma insertBubble_perm a l : insertBubble a l ≡ₚ a :: l.
Proof.
  induction l as [|b rest IH]; simpl; [done|].
  destruct (bubble_x b <=? bubble_x a); [done|].
  rewrite IH. apply Permutation_swap.
Qed.

Lemma sortBubbles_perm l : sortBubbles l ≡ₚ l.
Proof.
  unfold sortBubbles. induction l as [|a l IH]; [done|].
  simpl. by rewrite insertBubble_perm, IH.
Qed.

Lemma insertBubble_sorted a l :
  StronglySorted byFrequency l -> StronglySorted byFrequency (insertBubble a l).
Proof.
  induction 1 as [|b rest Hs IH Hb]; simpl.
  - repeat constructor.
  - destruct (bubble_x b <=? bubble_x a) eqn:E.
    + apply Nat.leb_le in E. constructor; [by constructor|].
      constructor; [done|]. eapply Forall_impl; [exact Hb|].
      unfold byFrequency. intros x Hx. lia.
    + apply Nat.leb_gt in E. constructor; [done|].
      rewrite insertBubble_perm. constructor; [|done].
      unfold byFrequency. lia.
Qed.

Lemma sortBubbles_sorted l : StronglySorted byFrequency (sortBubbles l).
Proof.
  unfold sortBubbles. induction l as [|a l IH]; simpl; [constructor|].
  by apply insertBubble_sorted.
Qed.

Lemma bubble_origin (history : list SentimentResult) b :
  b ∈ sortBubbles (bubbleOf <$> Object_entries (keywordCounts history)) ->
  exists k v, (k, v) ∈ keywordCounts history /\ b = bubbleOf (k, v).
Proof.
  rewrite sortBubbles_perm, Object_entries_perm.
  intros Hin. apply list_elem_of_fmap in Hin as ([k v] & -> & Hin). eauto.
Qed.

(** X14. Every bubble stands for a keyword of the history that is not an
    inherited property name; its [x] is the number of occurrences of that
    keyword (at least 1) and its [z] ten times that. No keyword has two
    bubbles. *)
Theorem keyword_bubbles_count_occurrences (history : list SentimentResult) :
  NoDup (bubble_name <$> keywordBubbleData history)
  /\ Forall
       (fun b =>
          inherited (bubble_name b) = false
          /\ bubble_name b ∈ keywordOccurrences history
          /\ bubble_x b = occurrenceCount (bubble_name b) history
          /\ 0 < bubble_x b
          /\ bubble_z b = 10 * bubble_x b)
       (keywordBubbleData history).
Proof.
  destruct (keywordCounts_spec history) as (Hnd & Hin & _).
  unfold keywordBubbleData. split.
  - apply (sublist_NoDup _ (bubble_name <$> sortBubbles
                              (bubbleOf <$> Object_entries
                                 (keywordCounts history)))).
    2: { rewrite fmap_take. apply sublist_take. }
    rewrite sortBubbles_perm, Object_entries_perm.
    rewrite <- list_fmap_compose. exact Hnd.
  - apply Forall_take, Forall_forall. intros b Hb.
    apply bubble_origin in Hb as (k & v & Hkv & ->).
    destruct (Hin k v Hkv) as (Hk & Hc & Hpos). simpl.
    split; [done|]. split.
    { unfold occurrenceCount in Hc.
      destruct (List.filter (String.eqb k) (keywordOccurrences history))
        as [|x l] eqn:Hf; [simpl in Hc; lia|].
      assert (In x (List.filter (String.eqb k) (keywordOccurrences history)))
        as Hx by (rewrite Hf; by left).
      apply List.filter_In in Hx as [Hx Hxk].
      apply String.eqb_eq in Hxk as <-. by apply list_elem_of_In. }
    split; [done|]. split; [done|]. lia.
Qed.

(** X15. The bubble list holds at most 10 bubbles, in order of
    frequency, the most frequent first. A keyword of the history that has
    no bubble and is not an inherited property name is left out only when
    the list is full, and then no bubble in the list is less frequent. *)
Theorem keyword_bubbles_are_the_most_frequent
  (history : list SentimentResult) :
  length (keywordBubbleData history) <= 10
  /\ StronglySorted byFrequency (keywordBubbleData history)
  /\ (forall k,
        inherited k = false -> k ∈ keywordOccurrences history ->
        k ∉ bubble_name <$> keywordBubbleData history ->
        length (keywordBubbleData history) = 10
        /\ Forall (fun b => occurrenceCount k history <= bubble_x b)
                  (keywordBubbleData history)).
Proof.
  unfold keywordBubbleData.
  set (sorted := sortBubbles (bubbleOf <$> Object_entries
                                (keywordCounts history))).
  pose proof (sortBubbles_sorted
                (bubbleOf <$> Object_entries (keywordCounts history)))
    as Hsorted. fold sorted in Hsorted.
  rewrite <- (take_drop 10 sorted) in Hsorted.
  split; [rewrite length_take; lia|].
  split; [by apply StronglySorted_app_1_l in Hsorted|].
  intros k Hk Hocc Hout.
  destruct (keywordCounts_spec history) as (Hnd & Hin & Hall).
  assert (0 < occurrenceCount k history) as Hpos.
  { unfold occurrenceCount. apply list_elem_of_In in Hocc.
    assert (In k (List.filter (String.eqb k) (keywordOccurrences history)))
      as Hf by (apply List.filter_In; split; [done|apply String.eqb_refl]).
    destruct (List.filter (String.eqb k) (keywordOccurrences history));
      [done|simpl; lia]. }
  specialize (Hall k Hk Hpos).
  apply list_elem_of_fmap in Hall as ([k' v] & Hk' & Hkv).
  simpl in Hk'. subst k'.
  destruct (Hin k v Hkv) as (_ & Hc & _).
  assert (bubbleOf (k, v) ∈ sorted) as Hb.
  { unfold sorted. rewrite sortBubbles_perm, Object_entries_perm.
    apply list_elem_of_fmap. by exists (k, v). }
  rewrite <- (take_drop 10 sorted) in Hb.
  apply elem_of_app in Hb as [Hb|Hb].
  { destruct Hout. apply list_elem_of_fmap. by exists (bubbleOf (k, v)). }
  split.
  - rewrite length_take. apply list_elem_of_lookup in Hb as [i Hi].
    apply lookup_lt_Some in Hi. rewrite length_drop in Hi. lia.
  - apply Forall_forall. intros a Ha.
    pose proof (StronglySorted_app_1_elem_of _ _ _ _ _ Hsorted Ha Hb) as Hab.
    unfold byFrequency in Hab. simpl in Hab. lia.
Qed.

Lemma countKeyword_conf kw c (counts : list (string * KeywordTotals)) :
  (0 <= c <= 1)%Q ->
  Forall (fun e => 0 <= kw_conf e.2 <= inject_Z (Z.of_nat (kw_count e.2)))%Q
         counts ->
  Forall (fun e => 0 <= kw_conf e.2 <= inject_Z (Z.of_nat (kw_count e.2)))%Q
         (countKeyword kw c counts).
Proof.
  intros [Hc0 Hc1].
  induction 1 as [|[k' v] rest [Hv0 Hv1] Hrest IH]; cbn [countKeyword].
  - constructor; [|constructor]. simpl.
    change (inject_Z (Z.of_nat 1)) with 1%Q. lra.
  - destruct (String.eqb k' kw).
    + constructor; [|done]. simpl in *.
      rewrite Number_of_nat_succ. lra.
    + constructor; [by split|done].
Qed.

Lemma keywordCounts_conf (history : list SentimentResult) :
  Forall (fun a => 0 <= confidence a <= 1)%Q (allAnalyses history) ->
  Forall (fun e => 0 <= kw_conf e.2 <= inject_Z (Z.of_nat (kw_count e.2)))%Q
         (keywordCounts history).
Proof.
  intros Hconf. rewrite keywordCounts_flat.
  assert (Forall (fun o => 0 <= o.2 <= 1)%Q (occurrencesWithConf history))
    as Hoccs.
  { unfold occurrencesWithConf.
    induction Hconf as [|a l Ha _ IH]; [constructor|].
    rewrite fmap_cons. cbn [concat]. apply Forall_app. split; [|done].
    apply Forall_fmap, Forall_forall. by intros kw _. }
  assert (forall counts : list (string * KeywordTotals),
             Forall (fun e => 0 <= kw_conf e.2
                              <= inject_Z (Z.of_nat (kw_count e.2)))%Q counts ->
             Forall (fun e => 0 <= kw_conf e.2
                              <= inject_Z (Z.of_nat (kw_count e.2)))%Q
                    (fold_left (fun counts o => noteKeyword o.2 counts o.1)
                               (occurrencesWithConf history) counts))
    as Hgen.
  { induction Hoccs as [|[kw c] occs Ho _ IH]; intros counts Hc; [done|].
    cbn [fold_left]. apply IH. unfold noteKeyword. simpl.
    destruct (inherited kw); [done|]. by apply countKeyword_conf. }
  apply Hgen. constructor.
Qed.

(** X23. When every confidence in the history lies between 0 and 1, the
    [y] of every bubble is a whole percentage between 0 and 100. *)
Theorem keyword_bubble_confidence_in_range (history : list SentimentResult) :
  Forall (fun a => 0 <= confidence a <= 1)%Q (allAnalyses history) ->
  Forall (fun b => exists v, bubble_y b = Some v /\ (0 <= v <= 100)%Z)
         (keywordBubbleData history).
Proof.
  intros Hconf. pose proof (keywordCounts_conf history Hconf) as Hall.
  destruct (keywordCounts_spec history) as (_ & Hin & _).
  unfold keywordBubbleData. apply Forall_take, Forall_forall. intros b Hb.
  apply bubble_origin in Hb as (k & v & Hkv & ->).
  rewrite Forall_forall in Hall. destruct (Hall _ Hkv) as [H0 H1].
  destruct (Hin k v Hkv) as (_ & _ & Hpos). simpl in *.
  by apply percent_bounds.
Qed.

(** ** Further facts: uploaded texts, and clearing the archives *)

Lemma split_pieces_free sep s p :
  p ∈ JsString.split sep s -> occursIn sep p = false.
Proof.
  revert p. induction s as [|c r IH]; intros p; cbn [JsString.split].
  - intros Hp. by apply list_elem_of_singleton in Hp as ->.
  - destruct (Ascii.eqb c sep) eqn:Hc.
    + intros Hp. apply elem_of_cons in Hp as [->|Hp]; [done|by apply IH].
    + destruct (JsString.split sep r) as [|h t] eqn:Hs.
      * by destruct (JsStringFacts.split_nonempty sep r).
      * intros Hp. apply elem_of_cons in Hp as [->|Hp].
        -- simpl. rewrite Hc. apply IH. by left.
        -- apply IH. by right.
Qed.

Lemma untilComma_free l : occursIn ","%char (untilComma l) = false.
Proof.
  induction l as [|c r IH]; [done|]. cbn [untilComma].
  destruct (Ascii.eqb c ","%char) eqn:Hc; [done|]. simpl. by rewrite Hc.
Qed.

Lemma untilComma_sub c l :
  occursIn c l = false -> occursIn c (untilComma l) = false.
Proof.
  induction l as [|c' r IH]; [done|]. cbn [untilComma occursIn].
  intros H. apply orb_false_elim in H as [H1 H2].
  destruct (Ascii.eqb c' ","%char); [done|]. simpl. by rewrite H1, IH.
Qed.

Lemma trimStart_sub c s :
  occursIn c s = false -> occursIn c (JsString.trimStart s) = false.
Proof.
  induction s as [|c' r IH]; [done|]. cbn [JsString.trimStart].
  intros H. destruct (JsString.is_space c'); [|done].
  apply orb_false_elim in H as [_ H]. by apply IH.
Qed.

Lemma trimEnd_sub c s :
  occursIn c s = false -> occursIn c (JsString.trimEnd s) = false.
Proof.
  induction s as [|c' r IH]; [done|]. cbn [JsString.trimEnd occursIn].
  intros H. apply orb_false_elim in H as [H1 H2].
  destruct (JsString.is_space c' && JsString.is_empty (JsString.trimEnd r));
    [done|]. simpl. by rewrite H1, IH.
Qed.

Lemma trim_sub c s :
  occursIn c s = false -> occursIn c (JsString.trim s) = false.
Proof. intros H. by apply trimEnd_sub, trimStart_sub. Qed.

Lemma dropFinalQuote_sub c s :
  occursIn c s = false -> occursIn c (JsString.dropFinalQuote s) = false.
Proof.
  induction s as [|c' r IH]; [done|]. intros H.
  cbn [occursIn] in H. apply orb_false_elim in H as [H1 H2].
  destruct r as [|c'' r'].
  - simpl. destruct (Ascii.eqb c' JsString.quote); [done|].
    simpl. by rewrite H1.
  - change (JsString.dropFinalQuote (String c' (String c'' r')))
      with (String c' (JsString.dropFinalQuote (String c'' r'))).
    cbn [occursIn]. by rewrite H1, IH.
Qed.

Lemma stripQuotes_sub c s :
  occursIn c s = false -> occursIn c (JsString.stripQuotes s) = false.
Proof.
  destruct s as [|c' r]; [done|]. intros H. unfold JsString.stripQuotes.
  destruct (Ascii.eqb c' JsString.quote).
  - cbn [occursIn] in H. apply orb_false_elim in H as [_ H].
    by apply dropFinalQuote_sub.
  - by apply dropFinalQuote_sub.
Qed.

(** X16. Every text an upload submits is already trimmed, is longer than
    5 characters and holds no line feed; when the file name ends in
    [.csv] it holds no comma either. *)
Theorem upload_texts_are_clean name content l :
  l ∈ uploadLines name content ->
  JsString.trim l = l
  /\ 5 < String.length l
  /\ occursIn newline l = false
  /\ (JsString.endsWith name ".csv" = true -> occursIn ","%char l = false).
Proof.
  rewrite uploadLines_extract. intros Hin.
  apply list_elem_of_filter in Hin as [Hlen Hin].
  apply list_elem_of_fmap in Hin as (x & -> & Hx).
  apply split_pieces_free in Hx.
  unfold extractLine in *.
  destruct (JsString.endsWith name ".csv").
  - split; [apply JsStringFacts.trim_idemp|]. split; [done|].
    split; [by apply trim_sub, stripQuotes_sub, untilComma_sub|].
    intros _. apply trim_sub, stripQuotes_sub, untilComma_free.
  - split; [apply JsStringFacts.trim_idemp|]. split; [done|].
    split; [by apply trim_sub|done].
Qed.

(** *** The primitives against the wording *)















Section UploadRule.

Variable JSON_parse_results : string -> option (list RawResult).
Variable JSON_parse_suggestion : string -> option Suggestion.
Variable randomUUID : nat -> string.
Variable toISOString : nat -> string.


End UploadRule.

Section ArchiveFacts.

Variable JSON_parse_results : string -> option (list RawResult).
Variable JSON_parse_suggestion : string -> option Suggestion.
Variable randomUUID : nat -> string.
Variable toISOString : nat -> string.

(** X17. Clearing the archives empties the history and leaves the current
    results alone. While there are current results, the distribution, the
    satisfaction score and the mood stay as they were; with none, the
    score is 0 and the mood is the empty theme. The history views are
    emptied: no trend point, no bubble, and radar rows of 0 under a
    ceiling of 10. *)
Theorem clearing_archives_spares_the_dashboard s :
  let s' := step JSON_parse_results JSON_parse_suggestion randomUUID
              toISOString s ClickClearArchives in
  history s' = [] /\ results s' = results s
  /\ (results s <> [] ->
      stats (results s') (history s') = stats (results s) (history s)
      /\ radialData (results s') (history s')
         = radialData (results s) (history s)
      /\ moodColors (results s') (history s')
         = moodColors (results s) (history s))
  /\ (results s = [] ->
      bar_value <$> radialData (results s') (history s') = [Some 0%Z]
      /\ moodColors (results s') (history s') = theme_empty)
  /\ timeSeriesData (history s') = []
  /\ keywordBubbleData (history s') = []
  /\ (fun row => (radar_Standard row, radar_Expert row, radar_fullMark row))
       <$> radarData (history s')
     = [(0, 0, 10); (0, 0, 10); (0, 0, 10)].
Proof.
  simpl. split; [done|]. split; [done|]. split.
  - intros Hne. unfold stats, radialData, moodColors, analyticsSource.
    by destruct (results s).
  - split; [by intros ->|]. done.
Qed.

End ArchiveFacts.

(** ** Further facts: flags, messages and the tracker *)

Section FlagFacts.

Variable JSON_parse_results : string -> option (list RawResult).
Variable JSON_parse_suggestion : string -> option Suggestion.
Variable randomUUID : nat -> string.
Variable toISOString : nat -> string.

Abbreviation step_f :=
  (step JSON_parse_results JSON_parse_suggestion randomUUID toISOString).
Abbreviation reachable_f :=
  (reachable JSON_parse_results JSON_parse_suggestion randomUUID toISOString).
Abbreviation resume_f :=
  (handleAnalysis_resume JSON_parse_results randomUUID toISOString).

(** X18. Once the loading flag is set, only the arrival of an analysis
    answer clears it: every other event leaves it set. *)
Theorem loading_ends_only_with_an_answer s e :
  isLoading s = true -> (forall resp, e <> AnalysisSettles resp) ->
  isLoading (step JSON_parse_results JSON_parse_suggestion randomUUID
               toISOString s e) = true.
Proof.
  intros Hl Hne.
  destruct e; try done; try (by destruct (Hne resp));
    unfold_handlers; simpl; repeat case_match; simpl; done.
Qed.

(** X19. An error message appears only when the answer to a provider
    request cannot be used: if no message is showing before an event and
    one is showing after it, the event is the arrival of an analysis
    answer or of an improvement answer that is rejected, missing, blank or
    not parsable. *)
Theorem errors_come_from_unusable_answers s e :
  error s = None -> error (step_f s e) <> None ->
  (exists resp, e = AnalysisSettles resp
                /\ ProviderFails JSON_parse_results resp)
  \/ (exists resp, e = ImprovementSettles resp
                   /\ Unusable JSON_parse_suggestion resp).
Proof.
  intros Hnone Hsome.
  destruct e;
    try (exfalso; apply Hsome; unfold_handlers; simpl;
         repeat case_match; simpl; done).
  - exfalso. apply Hsome. simpl.
    destruct (isLoading s || JsString.blank (inputText s)) eqn:Hdis;
      [done|]. apply orb_false_elim in Hdis as [_ Hb].
    unfold manualAnalyze, handleAnalysis. rewrite Hb. simpl. by rewrite Hb.
  - left. exists resp. split; [done|].
    apply (analyze_rejected_iff JSON_parse_results randomUUID toISOString
             resp (draws s) (now s)).
    simpl in Hsome. unfold handleAnalysis_resume in Hsome.
    destruct (analyzeSentiment JSON_parse_results randomUUID toISOString
                resp (draws s) (now s)) as [[new|reason] d] eqn:Han.
    + by destruct Hsome.
    + exists reason. f_equal.
      unfold analyzeSentiment in Han. repeat case_match; congruence.
  - right. exists resp. split; [done|].
    apply (improvement_answer_usable JSON_parse_suggestion resp).
    simpl in Hsome. unfold handleImproveRequest_resume in Hsome.
    destruct (getImprovementSuggestions JSON_parse_suggestion resp)
      as [data|reason]; [by destruct Hsome|by exists reason].
Qed.

(** X20. A tone session opens only from the Reframe button of a current
    result: when the modal is closed before an event and open after it,
    the captured id and text are those of one current result, and that
    result has an analysis whose sentiment is Negative. *)
Theorem sessions_open_on_negative_results s e rid rtext :
  improvingText s = None ->
  improvingText (step JSON_parse_results JSON_parse_suggestion randomUUID
                   toISOString s e) = Some (rid, rtext) ->
  exists r a,
    r ∈ results s /\ id r = rid /\ text r = rtext
    /\ a ∈ analyses r /\ sentiment a = "Negative".
Proof.
  intros Hclosed Hopen.
  destruct e;
    try (exfalso; revert Hopen; unfold_handlers; simpl;
         repeat case_match; simpl; congruence).
  simpl in Hopen. unfold clickReframe in Hopen.
  destruct (results s !! i) as [r|] eqn:Hr; [|congruence].
  destruct (analyses r !! j) as [a|] eqn:Ha; [|congruence].
  destruct (String.eqb_spec (sentiment a) "Negative") as [Hneg|];
    [|congruence].
  simpl in Hopen. injection Hopen as <- <-.
  exists r, a. repeat split; try done.
  - by apply list_elem_of_lookup_2 in Hr.
  - by apply list_elem_of_lookup_2 in Ha.
Qed.

Lemma step_tracker s e :
  lastAnalyzedText (step_f s e) = lastAnalyzedText s
  \/ exists p, calls (step_f s e)
               = calls s ++ [AnalyzeCall [lastAnalyzedText (step_f s e)] p].
Proof.
  assert (forall v (s0 : State),
             lastAnalyzedText (changeInput v s0) = lastAnalyzedText s0)
    as Hchange.
  { intros v s0. unfold changeInput. by destruct (String.eqb v (inputText s0)). }
  destruct e; simpl; try (by left).
  - unfold insertExample. destruct (examples !! k); [|by left].
    left. apply Hchange.
  - destruct (isLoading s || JsString.blank (inputText s)) eqn:Hdis;
      [by left|]. apply orb_false_elim in Hdis as [_ Hb].
    destruct (manualAnalyze_tracks s Hb) as [-> ->]. right. eauto.
  - unfold onFileUpload. destruct file; by left.
  - left. unfold fileRead, reader_onload, handleAnalysis_captured.
    by repeat case_match.
  - left. unfold clickReframe, handleImproveRequest. by repeat case_match.
  - left. unfold handleAnalysis_resume. by repeat case_match.
  - left. by repeat case_match.
  - unfold elapse. simpl. destruct (timer s) as [[due v]|]; [|by left].
    destruct (due <=? now s + d); [|by left].
    unfold timerFires. simpl.
    destruct (String.eqb v (debouncedInput s)); [by left|].
    set (s0 := setDebouncedValue v (setTimer None (setNow (now s + d) s))).
    destruct (decide (autoTrigger s0)) as [Hyes|Hno].
    + destruct (autoAnalysis_trigger s0 Hyes) as [Hc Ht].
      right. rewrite Hc, Ht. simpl. eauto.
    + left. by rewrite (autoAnalysis_idle s0 Hno).
Qed.

(** X21. In every reachable state the tracker is empty or holds the text
    of an analysis request that was really issued, as the only text of
    that request. *)
Theorem tracker_holds_a_submitted_text s :
  reachable JSON_parse_results JSON_parse_suggestion randomUUID toISOString
    s ->
  lastAnalyzedText s = ""
  \/ exists p, AnalyzeCall [lastAnalyzedText s] p ∈ calls s.
Proof.
  induction 1 as [|s e Hreach IH]; [by left|].
  destruct (step_tracker s e) as [->|[p Hp]].
  - destruct IH as [?|[p Hp]]; [by left|]. right. exists p.
    destruct (step_calls JSON_parse_results JSON_parse_suggestion randomUUID
                toISOString s e) as [->|(c & -> & _)]; [done|].
    apply elem_of_app. by left.
  - right. exists p. rewrite Hp. apply elem_of_app. right. by left.
Qed.

(** X22. An answer that parses to an empty array is a success, not a
    failure: the current results become empty, the history and the error
    channel are left as they are, the guide and the loading flag are
    switched off, and the dashboard aggregates go back to the history. *)
Theorem empty_answer_blanks_the_results s resp :
  providerReturns JSON_parse_results resp [] ->
  let s' := resume_f resp s in
  results s' = [] /\ history s' = history s /\ error s' = error s
  /\ showGuide s' = false /\ isLoading s' = false /\ draws s' = draws s
  /\ analyticsSource (results s') (history s') = history s.
Proof.
  intros Hret. simpl. unfold handleAnalysis_resume.
  rewrite (analyze_returns _ _ _ _ _ _ _ Hret). simpl.
  by repeat split.
Qed.

End FlagFacts.

(** ** Instances on sample data *)

Lemma handleAnalysis_success_witness :
  providerReturns Sample.parseResults Sample.answer
                  [Sample.rawComplaint; Sample.rawPraise]
  /\ take 2 (history (handleAnalysis_resume Sample.parseResults Sample.uuid
                        Sample.iso Sample.answer initial))
     = results (handleAnalysis_resume Sample.parseResults Sample.uuid
                  Sample.iso Sample.answer initial).
Proof.
  assert (providerReturns Sample.parseResults Sample.answer
            [Sample.rawComplaint; Sample.rawPraise]) as H.
  { exists " [two results] ". repeat split. vm_compute. discriminate. }
  split; [exact H|].
  destruct (handleAnalysis_success_replaces_and_prepends
              Sample.parseResults Sample.uuid Sample.iso initial _ _ H)
    as (_ & _ & Hlen & Htake & _).
  rewrite Hlen in Htake. exact Htake.
Defined.

Lemma handleAnalysis_failure_witness :
  ProviderFails Sample.parseResults (GenText (Some "   "))
  /\ isLoading (handleAnalysis_resume Sample.parseResults Sample.uuid
                  Sample.iso (GenText (Some "   "))
                  (handleAnalysis [Sample.complaint] initial)) = false.
Proof.
  assert (ProviderFails Sample.parseResults (GenText (Some "   "))) as H.
  { apply fails_blank. reflexivity. }
  split; [exact H|].
  apply (handleAnalysis_failure_keeps_store Sample.parseResults Sample.uuid
           Sample.iso initial [Sample.complaint] _ H).
Defined.

(** At a one-draw state after a successful analysis, a click on the help
    button shows the guide again. *)
Lemma guide_counterexample :
  showGuide (run Sample.parseResults Sample.parseSuggestion Sample.uuid
               Sample.iso initial [AnalysisSettles Sample.answer]) = false
  /\ showGuide (run Sample.parseResults Sample.parseSuggestion Sample.uuid
                  Sample.iso initial
                  [AnalysisSettles Sample.answer; ClickHelpCircle]) = true.
Proof. split; reflexivity. Qed.

Lemma guide_witness :
  ClickDismiss <> ClickHelpCircle /\ ClickDismiss <> ClickHelpCenter
  /\ showGuide (step Sample.parseResults Sample.parseSuggestion Sample.uuid
                  Sample.iso
                  (run Sample.parseResults Sample.parseSuggestion Sample.uuid
                     Sample.iso initial [AnalysisSettles Sample.answer])
                  ClickDismiss) = false.
Proof.
  split; [discriminate|]. split; [discriminate|].
  apply (proj1 (proj2 (guide_off_until_help_is_clicked Sample.parseResults
                         Sample.parseSuggestion Sample.uuid Sample.iso)));
    [discriminate|discriminate|reflexivity].
Defined.

(** The complaint is analysed, its Reframe button is clicked, the modal is
    dismissed, and the answer arrives: the suggestion is stored. *)
Lemma stale_improvement_counterexample :
  let s := run Sample.parseResults Sample.parseSuggestion Sample.uuid
             Sample.iso initial
             [AnalysisSettles Sample.answer; ClickReframe 0 0; ClickDismiss;
              ImprovementSettles Sample.answer] in
  ~ (sessionView s = Closed /\ suggestion s = None).
Proof. vm_compute. intros [_ H]. discriminate H. Qed.

(** C7 at a file with two short lines: after the file is chosen and read,
    no request has been issued and no error is shown, and the loading flag
    is still set. *)
Theorem short_upload_leaves_loading_set :
  let s := run Sample.parseResults Sample.parseSuggestion Sample.uuid
             Sample.iso initial
             [ChooseFile (Some Sample.shortNotes); FileRead Sample.shortNotes] in
  uploadLines (file_name Sample.shortNotes) (file_content Sample.shortNotes) = []
  /\ calls s = [] /\ error s = None /\ isLoading s = true.
Proof. vm_compute. done. Qed.

(** C5 at a history of two entries: the two points are named [T-15] and
    [T-14], where their distances from the newest point are 2 and 1. *)
Theorem trend_names_of_short_history :
  let history := [Sample.entry "b" [Sample.analysis "Positive" (4 # 5)];
                  Sample.entry "a" [Sample.analysis "Negative" (9 # 10)]] in
  point_name <$> timeSeriesData history = ["T-15"; "T-14"]
  /\ offsetLabels (length (timeSeriesData history)) = ["T-2"; "T-1"].
Proof. vm_compute. done. Qed.

Example trim_inner_space : JsString.trim "  a b  " = "a b".
Proof. reflexivity. Qed.

Example feedbackCsv_lines :
  uploadLines (file_name Sample.feedbackCsv) (file_content Sample.feedbackCsv)
  = ["Great service"].
Proof. reflexivity. Qed.

Example typing_then_settling :
  calls (run Sample.parseResults Sample.parseSuggestion Sample.uuid Sample.iso
           initial
           (burst Sample.typing ++ [ChangeInput Sample.complaint; Elapse 1500;
                                    Elapse 1500]))
  = [AnalyzeCall [Sample.complaint] compare].
Proof. reflexivity. Qed.

Example reframe_opens_session :
  sessionView
    (run Sample.parseResults Sample.parseSuggestion Sample.uuid Sample.iso
       initial [AnalysisSettles Sample.answer; ClickReframe 0 0])
  = Requesting.
Proof. reflexivity. Qed.

(** The complaint is analysed automatically; the praise is then typed and
    submitted with the button; the complaint is typed again and settles:
    it is long, it is not the tracked text, and nothing is issued. *)
Lemma auto_analysis_counterexample :
  let s := run Sample.parseResults Sample.parseSuggestion Sample.uuid
             Sample.iso initial
             [ChangeInput Sample.complaint; Elapse 1500;
              AnalysisSettles Sample.answer; ChangeInput Sample.praise;
              ClickAnalyze; ChangeInput Sample.complaint] in
  let s' := step Sample.parseResults Sample.parseSuggestion Sample.uuid
              Sample.iso s (Elapse 1500) in
  timer s = Some (3000, Sample.complaint)
  /\ timer s' = None
  /\ debouncedInput s' = Sample.complaint
  /\ 20 < String.length (JsString.trim (debouncedInput s'))
  /\ lastAnalyzedText s = Sample.praise
  /\ debouncedInput s' <> lastAnalyzedText s
  /\ issued s s' = [].
Proof.
  cbv zeta. split; [reflexivity|]. split; [reflexivity|].
  split; [reflexivity|]. split; [vm_compute; lia|].
  split; [reflexivity|]. split; [vm_compute; discriminate|reflexivity].
Qed.

Lemma auto_analysis_witness :
  changing (inputText initial) (Sample.typing.*1 ++ [Sample.complaint])
  /\ Forall (fun e => e.2 < 1500) Sample.typing
  /\ 1500 <= 1500
  /\ (Sample.complaint <> debouncedInput initial
      /\ 20 < String.length (JsString.trim Sample.complaint)
      /\ Sample.complaint <> lastAnalyzedText initial)
  /\ issued initial
       (step Sample.parseResults Sample.parseSuggestion Sample.uuid Sample.iso
          (run Sample.parseResults Sample.parseSuggestion Sample.uuid
             Sample.iso initial
             (burst Sample.typing ++ [ChangeInput Sample.complaint]))
          (Elapse 1500))
     = [AnalyzeCall [Sample.complaint] compare].
Proof.
  assert (changing (inputText initial)
            (Sample.typing.*1 ++ [Sample.complaint])) as Hch.
  { simpl. repeat split; discriminate. }
  assert (Forall (fun e => e.2 < 1500) Sample.typing) as Hgaps.
  { constructor; [simpl; lia|constructor]. }
  assert (Sample.complaint <> debouncedInput initial
          /\ 20 < String.length (JsString.trim Sample.complaint)
          /\ Sample.complaint <> lastAnalyzedText initial) as Hcond.
  { split; [discriminate|]. split; [vm_compute; lia|discriminate]. }
  split; [exact Hch|]. split; [exact Hgaps|]. split; [lia|].
  split; [exact Hcond|].
  exact (proj1 (proj1 (proj2 (proj2 (proj2 (proj2 (proj2
           (auto_analysis_on_settled_change Sample.parseResults
              Sample.parseSuggestion Sample.uuid Sample.iso)))))
           initial Sample.typing Sample.complaint 1500 [] Hch Hgaps
           (le_n 1500)) Hcond)).
Defined.

Example reviewsTxt_lines :
  uploadLines (file_name Sample.reviewsTxt) (file_content Sample.reviewsTxt)
  = ["Great service, really"].
Proof. reflexivity. Qed.


Lemma ids_never_shared_witness :
  Inj (=) (=) Sample.uuid
  /\ reachable Sample.parseResults Sample.parseSuggestion Sample.uuid
       Sample.iso
       (step Sample.parseResults Sample.parseSuggestion Sample.uuid
          Sample.iso initial (AnalysisSettles Sample.answer))
  /\ NoDup (id <$> history
              (step Sample.parseResults Sample.parseSuggestion Sample.uuid
                 Sample.iso initial (AnalysisSettles Sample.answer))).
Proof.
  assert (Inj (=) (=) Sample.uuid) as Hinj by exact pretty_nat_inj.
  assert (reachable Sample.parseResults Sample.parseSuggestion Sample.uuid
            Sample.iso
            (step Sample.parseResults Sample.parseSuggestion Sample.uuid
               Sample.iso initial (AnalysisSettles Sample.answer))) as Hreach.
  { apply reachable_step, reachable_initial. }
  split; [exact Hinj|]. split; [exact Hreach|].
  exact (proj1 (ids_never_shared Sample.parseResults Sample.parseSuggestion
                  Sample.uuid Sample.iso Hinj _ Hreach)).
Defined.

Lemma empty_analyses_witness :
  analyses (Sample.entry "r0" []) = []
  /\ moodColors [Sample.entry "r0" []] [] = theme_Neutral.
Proof.
  split; [reflexivity|].
  exact (proj1 (proj2 (proj2 (proj2
           (empty_analyses_are_safe (Sample.entry "r0" []) eq_refl)))) [] []).
Defined.


(** ** Instances of the further facts *)

Lemma requests_are_well_formed_witness :
  reachable Sample.parseResults Sample.parseSuggestion Sample.uuid Sample.iso
    (step Sample.parseResults Sample.parseSuggestion Sample.uuid Sample.iso
       Sample.typed (Elapse 1500))
  /\ Forall wellFormedCall
       (calls (step Sample.parseResults Sample.parseSuggestion Sample.uuid
                 Sample.iso Sample.typed (Elapse 1500))).
Proof.
  assert (reachable Sample.parseResults Sample.parseSuggestion Sample.uuid
            Sample.iso
            (step Sample.parseResults Sample.parseSuggestion Sample.uuid
               Sample.iso Sample.typed (Elapse 1500))) as Hreach.
  { apply reachable_step, reachable_step, reachable_initial. }
  split; [exact Hreach|].
  exact (requests_are_well_formed _ _ _ _ _ Hreach).
Defined.

Lemma analyze_button_witness :
  isLoading Sample.typed = false
  /\ JsString.blank (inputText Sample.typed) = false
  /\ lastAnalyzedText
       (step Sample.parseResults Sample.parseSuggestion Sample.uuid Sample.iso
          Sample.typed ClickAnalyze)
     = Sample.complaint.
Proof.
  split; [reflexivity|]. split; [reflexivity|].
  exact (proj1 (proj2 (proj2 (analyze_button Sample.parseResults
                                Sample.parseSuggestion Sample.uuid Sample.iso
                                Sample.typed) eq_refl eq_refl))).
Defined.

Lemma last_answer_wins_witness :
  providerReturns Sample.parseResults Sample.answer
                  [Sample.rawComplaint; Sample.rawPraise]
  /\ draws (handleAnalysis_resume Sample.parseResults Sample.uuid Sample.iso
              Sample.answer
              (handleAnalysis_resume Sample.parseResults Sample.uuid
                 Sample.iso Sample.answer initial))
     = 0 + 2 + 2.
Proof.
  assert (providerReturns Sample.parseResults Sample.answer
            [Sample.rawComplaint; Sample.rawPraise]) as H.
  { exists " [two results] ". repeat split. vm_compute. discriminate. }
  split; [exact H|].
  exact (proj1 (proj2 (proj2 (last_answer_wins Sample.parseResults Sample.uuid
                                Sample.iso initial _ _ _ _ H H)))).
Defined.

Lemma history_grows_at_front_witness :
  neverCleared [AnalysisSettles Sample.answer; ClickDismiss]
  /\ history Sample.loaded
     `suffix_of`
     history (run Sample.parseResults Sample.parseSuggestion Sample.uuid
                Sample.iso Sample.loaded
                [AnalysisSettles Sample.answer; ClickDismiss]).
Proof.
  assert (neverCleared [AnalysisSettles Sample.answer; ClickDismiss]) as H.
  { repeat constructor; discriminate. }
  split; [exact H|].
  exact (history_grows_at_front Sample.parseResults Sample.parseSuggestion
           Sample.uuid Sample.iso _ Sample.loaded H).
Defined.

Lemma results_head_the_history_witness :
  neverCleared [AnalysisSettles Sample.answer; ClickDismiss;
                AnalysisSettles Sample.answer]
  /\ results (run Sample.parseResults Sample.parseSuggestion Sample.uuid
                Sample.iso initial
                [AnalysisSettles Sample.answer; ClickDismiss;
                 AnalysisSettles Sample.answer])
     `prefix_of`
     history (run Sample.parseResults Sample.parseSuggestion Sample.uuid
                Sample.iso initial
                [AnalysisSettles Sample.answer; ClickDismiss;
                 AnalysisSettles Sample.answer]).
Proof.
  assert (neverCleared [AnalysisSettles Sample.answer; ClickDismiss;
                        AnalysisSettles Sample.answer]) as H.
  { repeat constructor; discriminate. }
  split; [exact H|].
  exact (results_head_the_history Sample.parseResults Sample.parseSuggestion
           Sample.uuid Sample.iso _ H).
Defined.

Lemma improvement_answer_usable_witness :
  (exists t, Sample.answer = GenText (Some t) /\ JsString.trim t <> ""
             /\ Sample.parseSuggestion (JsString.trim t) = Some Sample.rewrite)
  /\ getImprovementSuggestions Sample.parseSuggestion Sample.answer
     = Fulfilled Sample.rewrite.
Proof.
  assert (exists t, Sample.answer = GenText (Some t) /\ JsString.trim t <> ""
                    /\ Sample.parseSuggestion (JsString.trim t)
                       = Some Sample.rewrite) as H.
  { exists " [two results] ". repeat split. vm_compute. discriminate. }
  split; [exact H|].
  exact (proj2 (proj1 (improvement_answer_usable Sample.parseSuggestion
                         Sample.answer) Sample.rewrite) H).
Defined.

Lemma answer_lands_in_open_session_witness :
  getImprovementSuggestions Sample.parseSuggestion Sample.answer
  = Fulfilled Sample.rewrite
  /\ improvingText
       (step Sample.parseResults Sample.parseSuggestion Sample.uuid Sample.iso
          (handleImproveRequest "r2" Sample.praise
             (step Sample.parseResults Sample.parseSuggestion Sample.uuid
                Sample.iso
                (handleImproveRequest "r1" Sample.complaint Sample.loaded)
                ClickDismiss))
          (ImprovementSettles Sample.answer))
     = Some ("r2", Sample.praise).
Proof.
  split; [reflexivity|].
  exact (proj2 (proj2 (answer_lands_in_open_session Sample.parseResults
                         Sample.parseSuggestion Sample.uuid Sample.iso
                         Sample.loaded "r1" Sample.complaint "r2"
                         Sample.praise Sample.answer Sample.rewrite
                         eq_refl))).
Defined.

Lemma settled_value_catches_up_witness :
  reachable Sample.parseResults Sample.parseSuggestion Sample.uuid Sample.iso
    Sample.typed
  /\ 1500 <= 1500
  /\ debouncedInput
       (step Sample.parseResults Sample.parseSuggestion Sample.uuid Sample.iso
          Sample.typed (Elapse 1500))
     = inputText Sample.typed.
Proof.
  assert (reachable Sample.parseResults Sample.parseSuggestion Sample.uuid
            Sample.iso Sample.typed) as Hreach.
  { apply reachable_step, reachable_initial. }
  split; [exact Hreach|]. split; [lia|].
  exact (proj1 (settled_value_catches_up Sample.parseResults
                  Sample.parseSuggestion Sample.uuid Sample.iso
                  Sample.typed 1500 Hreach (le_n 1500))).
Defined.

Lemma radial_score_in_range_witness :
  posCount (analyticsSource [Sample.entry "r0" []] []) = 0
  /\ bar_value <$> radialData [Sample.entry "r0" []] [] = [Some 0%Z].
Proof.
  split; [reflexivity|].
  destruct (radial_score_in_range [Sample.entry "r0" []] [])
    as (v & Hv & _ & Hzero & _).
  rewrite (Hzero eq_refl) in Hv. exact Hv.
Defined.

Lemma trend_point_values_witness :
  timeSeriesData [Sample.entry "r0" []] !! 0
  = Some (trendPoint 0 (Sample.entry "r0" []))
  /\ exists h, reverse (take 15 [Sample.entry "r0" []]) !! 0 = Some h
               /\ (analyses h = [] ->
                   point_confidence (trendPoint 0 (Sample.entry "r0" []))
                   = None).
Proof.
  split; [reflexivity|].
  destruct (trend_point_values [Sample.entry "r0" []] 0
              (trendPoint 0 (Sample.entry "r0" [])) eq_refl)
    as (h & Hh & Hnan & _).
  exists h. split; [exact Hh|exact Hnan].
Defined.

Lemma radar_rows_are_bounded_witness :
  Forall (fun a => provider a <> "Standard" /\ provider a <> "Expert")
         (allAnalyses [Sample.entry "r0" [Sample.analysis "Positive" (4 # 5)]])
  /\ Forall (fun row => radar_Standard row = 0 /\ radar_Expert row = 0)
            (radarData
               [Sample.entry "r0" [Sample.analysis "Positive" (4 # 5)]]).
Proof.
  assert (Forall (fun a => provider a <> "Standard" /\ provider a <> "Expert")
            (allAnalyses
               [Sample.entry "r0" [Sample.analysis "Positive" (4 # 5)]]))
    as H.
  { repeat constructor; discriminate. }
  split; [exact H|].
  exact (proj2 (proj2 (radar_rows_are_bounded
                         [Sample.entry "r0"
                            [Sample.analysis "Positive" (4 # 5)]])) H).
Defined.

Lemma keyword_bubbles_are_the_most_frequent_witness :
  inherited "k" = false
  /\ "k" ∈ keywordOccurrences Sample.crowded
  /\ ("k" ∉ bubble_name <$> keywordBubbleData Sample.crowded)
  /\ length (keywordBubbleData Sample.crowded) = 10.
Proof.
  assert ("k" ∈ keywordOccurrences Sample.crowded) as Hin.
  { apply (bool_decide_unpack _). vm_compute. exact I. }
  assert ("k" ∉ (bubble_name <$> keywordBubbleData Sample.crowded)) as Hout.
  { apply (bool_decide_unpack _). vm_compute. exact I. }
  split; [reflexivity|]. split; [exact Hin|]. split; [exact Hout|].
  exact (proj1 (proj2 (proj2 (keyword_bubbles_are_the_most_frequent
                                Sample.crowded))
                  "k" eq_refl Hin Hout)).
Defined.

Lemma keyword_bubble_confidence_witness :
  Forall (fun a => 0 <= confidence a <= 1)%Q (allAnalyses Sample.crowded)
  /\ Forall (fun b => exists v, bubble_y b = Some v /\ (0 <= v <= 100)%Z)
            (keywordBubbleData Sample.crowded).
Proof.
  assert (Forall (fun a => 0 <= confidence a <= 1)%Q
            (allAnalyses Sample.crowded)) as H.
  { repeat constructor; simpl; unfold Qle; simpl; lia. }
  split; [exact H|].
  exact (keyword_bubble_confidence_in_range Sample.crowded H).
Defined.

Lemma upload_texts_are_clean_witness :
  "Great service"
    ∈ uploadLines (file_name Sample.feedbackCsv)
        (file_content Sample.feedbackCsv)
  /\ occursIn newline "Great service" = false.
Proof.
  assert ("Great service"
            ∈ uploadLines (file_name Sample.feedbackCsv)
                (file_content Sample.feedbackCsv)) as H.
  { apply (bool_decide_unpack _). vm_compute. exact I. }
  split; [exact H|].
  exact (proj1 (proj2 (proj2 (upload_texts_are_clean _ _ _ H)))).
Defined.

Lemma clearing_archives_witness :
  results Sample.loaded <> []
  /\ moodColors
       (results (step Sample.parseResults Sample.parseSuggestion Sample.uuid
                   Sample.iso Sample.loaded ClickClearArchives))
       (history (step Sample.parseResults Sample.parseSuggestion Sample.uuid
                   Sample.iso Sample.loaded ClickClearArchives))
     = moodColors (results Sample.loaded) (history Sample.loaded).
Proof.
  assert (results Sample.loaded <> []) as H by discriminate.
  split; [exact H|].
  exact (proj2 (proj2 (proj1 (proj2 (proj2
           (clearing_archives_spares_the_dashboard Sample.parseResults
              Sample.parseSuggestion Sample.uuid Sample.iso Sample.loaded)))
           H))).
Defined.

Lemma loading_ends_only_with_an_answer_witness :
  isLoading (onFileUpload (Some Sample.shortNotes) initial) = true
  /\ (forall resp, FileRead Sample.shortNotes <> AnalysisSettles resp)
  /\ isLoading
       (step Sample.parseResults Sample.parseSuggestion Sample.uuid Sample.iso
          (onFileUpload (Some Sample.shortNotes) initial)
          (FileRead Sample.shortNotes))
     = true.
Proof.
  assert (forall resp, FileRead Sample.shortNotes <> AnalysisSettles resp)
    as H by discriminate.
  split; [reflexivity|]. split; [exact H|].
  exact (loading_ends_only_with_an_answer Sample.parseResults
           Sample.parseSuggestion Sample.uuid Sample.iso
           (onFileUpload (Some Sample.shortNotes) initial)
           (FileRead Sample.shortNotes) eq_refl H).
Defined.

Lemma errors_come_from_unusable_answers_witness :
  error initial = None
  /\ error (step Sample.parseResults Sample.parseSuggestion Sample.uuid
              Sample.iso initial (AnalysisSettles GenRejects)) <> None
  /\ ((exists resp, AnalysisSettles GenRejects = AnalysisSettles resp
                    /\ ProviderFails Sample.parseResults resp)
      \/ (exists resp, AnalysisSettles GenRejects = ImprovementSettles resp
                       /\ Unusable Sample.parseSuggestion resp)).
Proof.
  assert (error (step Sample.parseResults Sample.parseSuggestion Sample.uuid
                   Sample.iso initial (AnalysisSettles GenRejects)) <> None)
    as H by discriminate.
  split; [reflexivity|]. split; [exact H|].
  exact (errors_come_from_unusable_answers Sample.parseResults
           Sample.parseSuggestion Sample.uuid Sample.iso initial _ eq_refl H).
Defined.

Lemma sessions_open_on_negative_results_witness :
  improvingText Sample.loaded = None
  /\ improvingText
       (step Sample.parseResults Sample.parseSuggestion Sample.uuid Sample.iso
          Sample.loaded (ClickReframe 0 0))
     = Some ("0", Sample.complaint)
  /\ exists r a, r ∈ results Sample.loaded /\ id r = "0"
                 /\ text r = Sample.complaint
                 /\ a ∈ analyses r /\ sentiment a = "Negative".
Proof.
  split; [reflexivity|]. split; [reflexivity|].
  exact (sessions_open_on_negative_results Sample.parseResults
           Sample.parseSuggestion Sample.uuid Sample.iso Sample.loaded
           (ClickReframe 0 0) "0" Sample.complaint eq_refl eq_refl).
Defined.

Lemma tracker_holds_a_submitted_text_witness :
  reachable Sample.parseResults Sample.parseSuggestion Sample.uuid Sample.iso
    (step Sample.parseResults Sample.parseSuggestion Sample.uuid Sample.iso
       Sample.typed (Elapse 1500))
  /\ (lastAnalyzedText
        (step Sample.parseResults Sample.parseSuggestion Sample.uuid
           Sample.iso Sample.typed (Elapse 1500)) = ""
      \/ exists p,
          AnalyzeCall
            [lastAnalyzedText
               (step Sample.parseResults Sample.parseSuggestion Sample.uuid
                  Sample.iso Sample.typed (Elapse 1500))] p
          ∈ calls (step Sample.parseResults Sample.parseSuggestion Sample.uuid
                     Sample.iso Sample.typed (Elapse 1500))).
Proof.
  assert (reachable Sample.parseResults Sample.parseSuggestion Sample.uuid
            Sample.iso
            (step Sample.parseResults Sample.parseSuggestion Sample.uuid
               Sample.iso Sample.typed (Elapse 1500))) as Hreach.
  { apply reachable_step, reachable_step, reachable_initial. }
  split; [exact Hreach|].
  exact (tracker_holds_a_submitted_text _ _ _ _ _ Hreach).
Defined.

Lemma empty_answer_blanks_the_results_witness :
  providerReturns Sample.parseNothing Sample.answer []
  /\ results (handleAnalysis_resume Sample.parseNothing Sample.uuid Sample.iso
                Sample.answer Sample.loaded) = [].
Proof.
  assert (providerReturns Sample.parseNothing Sample.answer []) as H.
  { exists " [two results] ". repeat split. vm_compute. discriminate. }
  split; [exact H|].
  exact (proj1 (empty_answer_blanks_the_results Sample.parseNothing
                  Sample.uuid Sample.iso Sample.loaded Sample.answer H)).
Defined.
